(** * Call-center dashboard: pagination window, chart shaping, page state

    A shallow embedding of the pure logic of the dashboard components:
    - [CallsTable]    : [getVisiblePages], the page-selector window;
    - [CallsChart]    : [dailyStats], [pieData], [hourlyData];
    - [CallsOverview] : [roundedUpMinutes];
    - [CallsFilters] / [CallsDashboard] : the filter and page state.

    JavaScript numbers that the code uses as integers (page indices, hours,
    counts) are [Z]; quantities that may be fractional (costs, minutes) are
    exact rationals [Q].  Strings are [string], one character per UTF-16 code
    unit, so that [String.length] is [.length] and [substring 0 n] is
    [.substring(0, n)]. *)

From Equations Require Import Equations.
From Stdlib Require Import ZArith List String Ascii Lia Bool DecimalString.
From Stdlib Require Import Sorted Permutation.
From Stdlib Require Import QArith Qround Lqa.
Import ListNotations.

Local Open Scope Z_scope.

(** ** CallsTable *)

Module CallsTable.

(** An element of the [pages] array: a page number or the string
    ['ellipsis']. *)
Inductive PageEntry : Type :=
| Page (n : Z)
| Ellipsis.

Definition PageEntry_eq_dec (a b : PageEntry) : {a = b} + {a <> b}.
Proof. decide equality. apply Z.eq_dec. Defined.

(** [for (let i = lo; i <= hi; i++) { pages.push(i); }] with [i] the loop
    variable and [pages] the array built so far. *)
Equations? push_loop (i hi : Z) (pages : list PageEntry) : list PageEntry
  by wf (Z.to_nat (hi + 1 - i)) lt :=
  push_loop i hi pages with Z_le_gt_dec i hi => {
    | left _ => push_loop (i + 1) hi (pages ++ [Page i]);
    | right _ => pages }.
Proof. lia. Qed.

Definition maxVisible : Z := 7.

Definition getVisiblePages (currentPage totalPages : Z) : list PageEntry :=
  let pages := [] in
  if totalPages <=? maxVisible then
    push_loop 1 totalPages pages
  else
    if currentPage <=? 4 then
      let pages := push_loop 1 5 pages in
      let pages := pages ++ [Ellipsis] in
      pages ++ [Page totalPages]
    else if currentPage >=? totalPages - 3 then
      let pages := pages ++ [Page 1] in
      let pages := pages ++ [Ellipsis] in
      push_loop (totalPages - 4) totalPages pages
    else
      let pages := pages ++ [Page 1] in
      let pages := pages ++ [Ellipsis] in
      let pages := push_loop (currentPage - 1) (currentPage + 1) pages in
      let pages := pages ++ [Ellipsis] in
      pages ++ [Page totalPages].

(** The page numbers of a window, ellipsis markers dropped. *)
Fixpoint page_numbers (l : list PageEntry) : list Z :=
  match l with
  | [] => []
  | Page n :: l' => n :: page_numbers l'
  | Ellipsis :: l' => page_numbers l'
  end.

(** The integers [lo, lo+1, ..., lo+n-1]. *)
Fixpoint Zrange (lo : Z) (n : nat) : list Z :=
  match n with
  | O => []
  | S n' => lo :: Zrange (lo + 1) n'
  end.

End CallsTable.

(** ** Abrupt completion *)

(** What the evaluation of a JavaScript expression yields: a value, or a
    thrown error.  The two errors below are the [TypeError]s that the chart
    code can raise. *)
Module JS.

Inductive Error : Type :=
| NotAFunction (callee : string)
| PropertyOfUndefined (property : string).

Inductive completion (A : Type) : Type :=
| Normal (a : A)
| Throw (e : Error).

Arguments Normal {A} a.
Arguments Throw {A} e.

Definition bind {A B : Type} (c : completion A) (k : A -> completion B)
  : completion B :=
  match c with
  | Normal a => k a
  | Throw e => Throw e
  end.

(** [array.map(callback)]: the callback runs on the elements from left to
    right and the first error it throws ends the whole call. *)
Fixpoint array_map {A B : Type} (callback : A -> completion B) (l : list A)
  : completion (list B) :=
  match l with
  | [] => Normal []
  | x :: l' =>
      bind (callback x) (fun y =>
      bind (array_map callback l') (fun ys =>
      Normal (y :: ys)))
  end.

(** [name(x)] for an imported binding: a binding of a name that the module
    does not export is [undefined], and calling it throws. *)
Definition call {A B : Type} (name : string) (binding : option (A -> B))
  (x : A) : completion B :=
  match binding with
  | Some f => Normal (f x)
  | None => Throw (NotAFunction name)
  end.

End JS.

(** ** CallsChart *)

Module CallsChart.

(** [Number(x)] applied to a value of TypeScript type [number]. *)
Definition Number {A : Type} (x : A) : A := x.

(** Rows of [ChartData.daily]. *)
Module Daily.
Record row : Type := {
  call_date : string;
  call_count : Z;
  total_cost : Q;
  total_minutes : Q
}.
End Daily.

(** Rows of [ChartData.outcomes]. *)
Record OutcomeRow : Type := {
  outcome_name : string;
  outcome_count : Z
}.

(** Rows of [ChartData.hourly]. *)
Module Hourly.
Record row : Type := {
  call_hour : Z;
  call_count : Z
}.
End Hourly.

Record ChartData : Type := {
  daily : list Daily.row;
  outcomes : list OutcomeRow;
  hourly : list Hourly.row
}.

(** Entries of the [dailyStats] series. *)
Module DailyStat.
Record t : Type := {
  date : string;
  calls : Z;
  cost : Q;
  minutes : Q
}.
End DailyStat.

(** Entries of the [pieData] series. *)
Record PieEntry : Type := {
  name : string;
  value : Z;
  displayName : string
}.

(** Entries of the [hourlyData] series. *)
Module HourEntry.
Record t : Type := {
  hour : string;
  calls : Z
}.
End HourEntry.

(** The binding that [import { formatInTimeZone, parseISO } from
    'date-fns-tz'] gives to [parseISO]: that package exports
    [formatInTimeZone] but nothing named [parseISO] (the function of that
    name belongs to [date-fns]), so the binding is [undefined]. *)
Definition imported_parseISO (Date : Type) : option (string -> Date) := None.

Section DailySeries.

(** The date library is external to the repository: [Date] is its date
    type, [formatInTimeZone] its export, and [parseISO] the value of the
    imported binding of that name ([imported_parseISO] in the component as
    it is written). *)
Variable Date : Type.
Variable parseISO : option (string -> Date).
Variable formatInTimeZone : Date -> string -> string -> string.

Definition dailyStat_of (item : Daily.row) : JS.completion DailyStat.t :=
  JS.bind (JS.call "parseISO" parseISO (Daily.call_date item)) (fun d =>
  JS.Normal
    {| DailyStat.date := formatInTimeZone d "America/New_York" "MMM dd";
       DailyStat.calls := Number (Daily.call_count item);
       DailyStat.cost := Number (Daily.total_cost item);
       DailyStat.minutes := Number (Daily.total_minutes item) |}).

(** [(chartData?.daily || []).map(...).reverse()] *)
Definition dailyStats (chartData : option ChartData)
  : JS.completion (list DailyStat.t) :=
  JS.bind
    (JS.array_map dailyStat_of
       (match chartData with
        | Some c => daily c
        | None => []
        end))
    (fun series => JS.Normal (rev series)).

End DailySeries.

(** The entry that the callback of [dailyStats] builds from a row when
    [parseISO] is bound to a function [parse]. *)
Definition dailyStat_with (Date : Type)
  (formatInTimeZone : Date -> string -> string -> string)
  (parse : string -> Date) (item : Daily.row) : DailyStat.t :=
  {| DailyStat.date :=
       formatInTimeZone (parse (Daily.call_date item))
         "America/New_York"%string "MMM dd"%string;
     DailyStat.calls := Daily.call_count item;
     DailyStat.cost := Daily.total_cost item;
     DailyStat.minutes := Daily.total_minutes item |}.

(** [s.length > 12 ? s.substring(0, 12) + '...' : s] *)
Definition truncate_name (outcome_name : string) : string :=
  if (12 <? String.length outcome_name)%nat
  then substring 0 12 outcome_name ++ "..."
  else outcome_name.

Definition pieEntry_of (item : OutcomeRow) : PieEntry :=
  {| name := outcome_name item;
     value := Number (outcome_count item);
     displayName := truncate_name (outcome_name item) |}.

(** [(chartData?.outcomes || []).map(...)] *)
Definition pieData (chartData : option ChartData) : list PieEntry :=
  map pieEntry_of
      (match chartData with
       | Some c => outcomes c
       | None => []
       end).

(** The [formatter] of the pie chart's [Legend], applied to an entry's
    name: [value.length > 15 ? value.substring(0, 15) + '...' : value]. *)
Definition legendFormatter (value : string) : string :=
  if (15 <? String.length value)%nat
  then substring 0 15 value ++ "..."
  else value.

(** The template literal [`${hour}:00`] for an array index [hour]. *)
Definition hour_label (hour : nat) : string :=
  NilZero.string_of_uint (Nat.to_uint hour) ++ ":00".

(** [chartData?.hourly?.find(h => h.call_hour === hour)] *)
Definition hourCalls (chartData : option ChartData) (hour : nat)
  : option Hourly.row :=
  match chartData with
  | Some c => find (fun h => Hourly.call_hour h =? Z.of_nat hour) (hourly c)
  | None => None
  end.

Definition hourEntry_of (chartData : option ChartData) (hour : nat)
  : HourEntry.t :=
  {| HourEntry.hour := hour_label hour;
     HourEntry.calls :=
       match hourCalls chartData hour with
       | Some h => Number (Hourly.call_count h)
       | None => 0
       end |}.

(** [Array.from({ length: 24 }, (_, hour) => ...)] *)
Definition hourlyData (chartData : option ChartData) : list HourEntry.t :=
  map (hourEntry_of chartData) (seq 0 24).

End CallsChart.

(** ** CallsOverview *)

Module CallsOverview.

Record CallStatistics : Type := {
  total_calls : Z;
  total_cost : Q;
  total_minutes : Q;
  successful_calls : Z;
  success_rate : Q
}.

Definition Math_ceil (x : Q) : Z := Qceiling x.

(** [statistics?.total_minutes || 0]: zero and a missing record both give
    the literal [0]. *)
Definition totalMinutesRaw (statistics : option CallStatistics) : Q :=
  match statistics with
  | Some s => if Qeq_bool (total_minutes s) 0 then 0%Q else total_minutes s
  | None => 0%Q
  end.

(** [Math.ceil(Number(totalMinutesRaw) / 3) * 3] *)
Definition roundedUpMinutes (statistics : option CallStatistics) : Z :=
  Math_ceil (CallsChart.Number (totalMinutesRaw statistics) / 3) * 3.

(** The value of the "Total Minutes" card: [`${roundedUpMinutes}m`]. *)
Definition totalMinutesValue (statistics : option CallStatistics) : string :=
  NilZero.string_of_int (Z.to_int (roundedUpMinutes statistics)) ++ "m".

End CallsOverview.

(** ** CallsFilters *)

Module CallsFilters.

(** The [CallsFilters] object; an absent or [undefined] field is [None]. *)
Record t : Type := {
  outcome : option string;
  dateFrom : option string;
  dateTo : option string;
  customerNumber : option string
}.

(** [keyof CallsFilters] *)
Module Key.
Inductive t : Type := outcome | dateFrom | dateTo | customerNumber.
End Key.

(** The object literal [{}]. *)
Definition empty : t :=
  {| outcome := None; dateFrom := None; dateTo := None;
     customerNumber := None |}.

(** [value || undefined] for a string [value]. *)
Definition or_undefined (value : string) : option string :=
  match value with
  | EmptyString => None
  | _ => Some value
  end.

(** The argument that [updateFilter(key, value)] hands to
    [onFiltersChange]: [{ ...filters, [key]: value || undefined }]. *)
Definition updateFilter (filters : t) (key : Key.t) (value : string) : t :=
  match key with
  | Key.outcome =>
      {| outcome := or_undefined value; dateFrom := dateFrom filters;
         dateTo := dateTo filters; customerNumber := customerNumber filters |}
  | Key.dateFrom =>
      {| outcome := outcome filters; dateFrom := or_undefined value;
         dateTo := dateTo filters; customerNumber := customerNumber filters |}
  | Key.dateTo =>
      {| outcome := outcome filters; dateFrom := dateFrom filters;
         dateTo := or_undefined value;
         customerNumber := customerNumber filters |}
  | Key.customerNumber =>
      {| outcome := outcome filters; dateFrom := dateFrom filters;
         dateTo := dateTo filters; customerNumber := or_undefined value |}
  end.

(** The argument that [clearFilters()] hands to [onFiltersChange]. *)
Definition clearFilters : t := empty.

Definition truthy (value : option string) : bool :=
  match value with
  | Some (String _ _) => true
  | _ => false
  end.

(** [Object.values(filters).some(value => value)] *)
Definition hasActiveFilters (filters : t) : bool :=
  existsb truthy
    [outcome filters; dateFrom filters; dateTo filters;
     customerNumber filters].

End CallsFilters.

(** ** CallsDashboard *)

Module CallsDashboard.

Definition CALLS_PER_PAGE : Z := 10.

(** What the table query resolves to, without the rows themselves. *)
Record CallsData : Type := {
  totalCount : Z;
  totalPages : Z
}.

(** [count || 0] for the nullable [count] of the count query. *)
Definition count_or_0 (count : option Z) : Z :=
  match count with
  | Some c => c
  | None => 0
  end.

(** The [result] object built at the end of the table query. *)
Definition queryResult (count : option Z) : CallsData :=
  {| totalCount := count_or_0 count;
     totalPages :=
       CallsOverview.Math_ceil
         (inject_Z (count_or_0 count) / inject_Z CALLS_PER_PAGE) |}.

(** The component state.  [filters] is an object compared by identity in
    the dependency array of the page-reset effect, so it is kept with the
    reference [filtersRef] under which it was allocated; [effectDeps] is the
    reference the effect saw on its last run ([None] before mount) and
    [nextRef] the next unused reference. *)
Record State : Type := {
  filters : CallsFilters.t;
  filtersRef : nat;
  currentPage : Z;
  callsData : option CallsData;
  effectDeps : option nat;
  nextRef : nat
}.

(** [callsData?.totalPages || 0], the [totalPages] prop of the table. *)
Definition totalPagesProp (st : State) : Z :=
  match callsData st with
  | Some d => totalPages d
  | None => 0
  end.

(** [setFilters(newFilters)] with a freshly allocated object. *)
Definition setFilters (newFilters : CallsFilters.t) (st : State) : State :=
  {| filters := newFilters;
     filtersRef := nextRef st;
     currentPage := currentPage st;
     callsData := callsData st;
     effectDeps := effectDeps st;
     nextRef := S (nextRef st) |}.

(** [setCurrentPage(page)] *)
Definition setCurrentPage (page : Z) (st : State) : State :=
  {| filters := filters st;
     filtersRef := filtersRef st;
     currentPage := page;
     callsData := callsData st;
     effectDeps := effectDeps st;
     nextRef := nextRef st |}.

Definition handlePageChange (page : Z) (st : State) : State :=
  setCurrentPage page st.

(** A new value of the query's [data]: [undefined] while nothing is
    available for the current key, else the result for some [count]. *)
Definition setCallsData (d : option CallsData) (st : State) : State :=
  {| filters := filters st;
     filtersRef := filtersRef st;
     currentPage := currentPage st;
     callsData := d;
     effectDeps := effectDeps st;
     nextRef := nextRef st |}.

Definition deps_changed (st : State) : bool :=
  match effectDeps st with
  | Some r => negb (Nat.eqb r (filtersRef st))
  | None => true
  end.

(** [React.useEffect(() => { setCurrentPage(1); }, [filters])]: after a
    render, the effect runs when the [filters] reference differs from the one
    of its last run. *)
Definition runEffects (st : State) : State :=
  if deps_changed st then
    let st' := setCurrentPage 1 st in
    {| filters := filters st';
       filtersRef := filtersRef st';
       currentPage := currentPage st';
       callsData := callsData st';
       effectDeps := Some (filtersRef st');
       nextRef := nextRef st' |}
  else st.

(** What can happen to a mounted dashboard. *)
Inductive Event : Type :=
| SelectOutcome (value : string)
| InputDateFrom (value : string)
| InputDateTo (value : string)
| InputCustomerNumber (value : string)
| ClickClear
| ClickPrevious
| ClickPageLink (page : Z)
| ClickNext
| QueryPending
| QuerySettled (count : option Z).

(** Is there a link for [page] among the rendered page selectors? *)
Definition page_link_shown (page : Z) (st : State) : bool :=
  (totalPagesProp st >? 1) &&
  existsb (fun e => if CallsTable.PageEntry_eq_dec e (CallsTable.Page page)
                    then true else false)
          (CallsTable.getVisiblePages (currentPage st) (totalPagesProp st)).

(** The event handlers, as wired in [CallsFilters], [CallsTable] and
    [CallsDashboard].  A handler sets [filters] or [currentPage] only; what
    the table query then holds for its new key (nothing yet, or a cached
    result) comes as a [QueryPending] or [QuerySettled] event of its own. *)
Definition handle (ev : Event) (st : State) : State :=
  match ev with
  | SelectOutcome value =>
      setFilters
        (CallsFilters.updateFilter (filters st) CallsFilters.Key.outcome
           (if String.eqb value "all" then "" else value)) st
  | InputDateFrom value =>
      setFilters
        (CallsFilters.updateFilter (filters st) CallsFilters.Key.dateFrom
           value) st
  | InputDateTo value =>
      setFilters
        (CallsFilters.updateFilter (filters st) CallsFilters.Key.dateTo
           value) st
  | InputCustomerNumber value =>
      setFilters
        (CallsFilters.updateFilter (filters st)
           CallsFilters.Key.customerNumber value) st
  | ClickClear => setFilters CallsFilters.clearFilters st
  | ClickPrevious =>
      if (totalPagesProp st >? 1) && (currentPage st >? 1)
      then handlePageChange (currentPage st - 1) st
      else st
  | ClickPageLink page =>
      if page_link_shown page st then handlePageChange page st else st
  | ClickNext =>
      if (totalPagesProp st >? 1) && (currentPage st <? totalPagesProp st)
      then handlePageChange (currentPage st + 1) st
      else st
  | QueryPending => setCallsData None st
  | QuerySettled count => setCallsData (Some (queryResult count)) st
  end.

(** One transition: the handler updates the state, the component renders
    again and its effects run. *)
Definition step (ev : Event) (st : State) : State :=
  runEffects (handle ev st).

(** [useState({})] and [useState(1)] at the first render, before any effect
    has run and before the query has data. *)
Definition first_render : State :=
  {| filters := CallsFilters.empty;
     filtersRef := 0%nat;
     currentPage := 1;
     callsData := None;
     effectDeps := None;
     nextRef := 1%nat |}.

(** The mounted component: the first render followed by its effects. *)
Definition initial : State := runEffects first_render.

(** States of the dashboard after mounting and any sequence of events. *)
Inductive reachable : State -> Prop :=
| reachable_initial : reachable initial
| reachable_step ev st : reachable st -> reachable (step ev st).

(** The events that call [onFiltersChange]. *)
Definition changes_filters (ev : Event) : bool :=
  match ev with
  | SelectOutcome _ | InputDateFrom _ | InputDateTo _
  | InputCustomerNumber _ | ClickClear => true
  | _ => false
  end.

(** In a reachable state the effect has run for the current [filters]
    object, and that object's reference is older than every unused one. *)
Definition settled (st : State) : Prop :=
  effectDeps st = Some (filtersRef st) /\ (filtersRef st < nextRef st)%nat.

End CallsDashboard.

(** ** CallsTable: the rendered page links *)

Module CallsTableLinks.
Import CallsTable.

(** [isActive={currentPage === page}] for a numeric entry [page]. *)
Definition isActive (currentPage page : Z) : bool := currentPage =? page.

(** The [isActive] flags that [pages.map(...)] gives to the
    [PaginationLink]s of a list of entries, in order; an ellipsis entry
    gives a [span] and no link. *)
Fixpoint activeFlags (currentPage : Z) (pages : list PageEntry) : list bool :=
  match pages with
  | [] => []
  | Page n :: pages' => isActive currentPage n :: activeFlags currentPage pages'
  | Ellipsis :: pages' => activeFlags currentPage pages'
  end.

(** The [isActive] flags of the links that the component renders: none
    while [isLoading] (the early return of the skeleton), none unless
    [totalPages > 1] (the guard around the whole [Pagination]), and else
    those of [getVisiblePages().map(...)]. *)
Definition renderedLinkFlags (isLoading : bool) (currentPage totalPages : Z)
  : list bool :=
  if isLoading then []
  else if totalPages >? 1
       then activeFlags currentPage (getVisiblePages currentPage totalPages)
       else [].

End CallsTableLinks.

(** ** CallsFilters: the values shown by the form controls *)

Module CallsFiltersForm.

(** [field || fallback] for an optional string [field]. *)
Definition or_else (field : option string) (fallback : string) : string :=
  match field with
  | Some (String c s) => String c s
  | _ => fallback
  end.

(** [value={filters.outcome || "all"}] of the outcome [Select]. *)
Definition selectValue (filters : CallsFilters.t) : string :=
  or_else (CallsFilters.outcome filters) "all".

(** [value={filters.dateFrom || ""}] and its siblings. *)
Definition dateFromValue (filters : CallsFilters.t) : string :=
  or_else (CallsFilters.dateFrom filters) "".

Definition dateToValue (filters : CallsFilters.t) : string :=
  or_else (CallsFilters.dateTo filters) "".

Definition customerNumberValue (filters : CallsFilters.t) : string :=
  or_else (CallsFilters.customerNumber filters) "".

(** Reading a field by its key. *)
Definition get (key : CallsFilters.Key.t) (filters : CallsFilters.t)
  : option string :=
  match key with
  | CallsFilters.Key.outcome => CallsFilters.outcome filters
  | CallsFilters.Key.dateFrom => CallsFilters.dateFrom filters
  | CallsFilters.Key.dateTo => CallsFilters.dateTo filters
  | CallsFilters.Key.customerNumber => CallsFilters.customerNumber filters
  end.

(** A field is normal when it is absent or a non-empty string. *)
Definition normal_field (field : option string) : Prop :=
  field <> Some EmptyString.

Definition normal (filters : CallsFilters.t) : Prop :=
  forall key, normal_field (get key filters).

End CallsFiltersForm.

(** ** CallsDashboard: the queries it builds *)

(** The part of the Supabase query builder that the dashboard uses: a query
    is the record of what has been asked of it so far. *)
Module Supabase.

Inductive Predicate : Type :=
| P_eq (column value : string)
| P_gte (column value : string)
| P_lte (column value : string)
| P_ilike (column pattern : string).

Record Query : Type := {
  table : string;
  columns : string;
  count_mode : option string;
  head_only : bool;
  ordering : option (string * bool);
  row_range : option (Z * Z);
  predicates : list Predicate
}.

Definition add (p : Predicate) (q : Query) : Query :=
  {| table := table q; columns := columns q; count_mode := count_mode q;
     head_only := head_only q; ordering := ordering q;
     row_range := row_range q; predicates := predicates q ++ [p] |}.

(** [supabase.from(table)] *)
Definition from (table : string) : Query :=
  {| table := table; columns := ""; count_mode := None; head_only := false;
     ordering := None; row_range := None; predicates := [] |}.

(** [.select(columns, { count, head })] *)
Definition select (columns : string) (count : option string) (head : bool)
  (q : Query) : Query :=
  {| table := table q; columns := columns; count_mode := count;
     head_only := head; ordering := ordering q; row_range := row_range q;
     predicates := predicates q |}.

(** [.order(column, { ascending })] *)
Definition order (column : string) (ascending : bool) (q : Query) : Query :=
  {| table := table q; columns := columns q; count_mode := count_mode q;
     head_only := head_only q; ordering := Some (column, ascending);
     row_range := row_range q; predicates := predicates q |}.

(** [.range(from, to)], both ends inclusive. *)
Definition range (lo hi : Z) (q : Query) : Query :=
  {| table := table q; columns := columns q; count_mode := count_mode q;
     head_only := head_only q; ordering := ordering q;
     row_range := Some (lo, hi); predicates := predicates q |}.

Definition eq (column value : string) : Query -> Query :=
  add (P_eq column value).
Definition gte (column value : string) : Query -> Query :=
  add (P_gte column value).
Definition lte (column value : string) : Query -> Query :=
  add (P_lte column value).
Definition ilike (column pattern : string) : Query -> Query :=
  add (P_ilike column pattern).

(** The arguments of the aggregate functions called with [supabase.rpc]. *)
Record RpcArgs : Type := {
  p_outcome : option string;
  p_date_from : option string;
  p_date_to : option string;
  p_customer_number : option string;
  p_limit : option Z
}.

Record RpcCall : Type := {
  fn : string;
  args : RpcArgs
}.

End Supabase.

Module CallsQueries.
Import CallsDashboard.

(** [if (field) { q = op(field)(q) }] *)
Definition if_set (field : option string)
  (op : string -> Supabase.Query -> Supabase.Query) (q : Supabase.Query)
  : Supabase.Query :=
  match field with
  | Some (String c s) => op (String c s) q
  | _ => q
  end.

(** The count query of the table. *)
Definition countQuery (filters : CallsFilters.t) : Supabase.Query :=
  let countQuery :=
    Supabase.select "*" (Some "exact"%string) true (Supabase.from "calls") in
  let countQuery :=
    if_set (CallsFilters.outcome filters) (Supabase.eq "outcome") countQuery in
  let countQuery :=
    if_set (CallsFilters.dateFrom filters) (Supabase.gte "call_date")
      countQuery in
  let countQuery :=
    if_set (CallsFilters.dateTo filters) (Supabase.lte "call_date")
      countQuery in
  if_set (CallsFilters.customerNumber filters)
    (fun v => Supabase.ilike "customer_number" ("%" ++ v ++ "%")) countQuery.

(** The first and last row index asked for page [currentPage]. *)
Definition rangeFrom (currentPage : Z) : Z :=
  (currentPage - 1) * CALLS_PER_PAGE.

Definition rangeTo (currentPage : Z) : Z :=
  currentPage * CALLS_PER_PAGE - 1.

(** The data query of the table. *)
Definition dataQuery (filters : CallsFilters.t) (currentPage : Z)
  : Supabase.Query :=
  let dataQuery :=
    Supabase.range (rangeFrom currentPage) (rangeTo currentPage)
      (Supabase.order "call_date" false
         (Supabase.select "*" None false (Supabase.from "calls"))) in
  let dataQuery :=
    if_set (CallsFilters.outcome filters) (Supabase.eq "outcome") dataQuery in
  let dataQuery :=
    if_set (CallsFilters.dateFrom filters) (Supabase.gte "call_date")
      dataQuery in
  let dataQuery :=
    if_set (CallsFilters.dateTo filters) (Supabase.lte "call_date")
      dataQuery in
  if_set (CallsFilters.customerNumber filters)
    (fun v => Supabase.ilike "customer_number" ("%" ++ v ++ "%")) dataQuery.

(** [field || null] *)
Definition or_null (field : option string) : option string :=
  match field with
  | Some (String c s) => Some (String c s)
  | _ => None
  end.

Definition statisticsCall (filters : CallsFilters.t) : Supabase.RpcCall :=
  {| Supabase.fn := "get_call_statistics";
     Supabase.args :=
       {| Supabase.p_outcome := or_null (CallsFilters.outcome filters);
          Supabase.p_date_from := or_null (CallsFilters.dateFrom filters);
          Supabase.p_date_to := or_null (CallsFilters.dateTo filters);
          Supabase.p_customer_number :=
            or_null (CallsFilters.customerNumber filters);
          Supabase.p_limit := None |} |}.

Definition dailyCall (filters : CallsFilters.t) : Supabase.RpcCall :=
  {| Supabase.fn := "get_daily_call_aggregates";
     Supabase.args :=
       {| Supabase.p_outcome := or_null (CallsFilters.outcome filters);
          Supabase.p_date_from := or_null (CallsFilters.dateFrom filters);
          Supabase.p_date_to := or_null (CallsFilters.dateTo filters);
          Supabase.p_customer_number :=
            or_null (CallsFilters.customerNumber filters);
          Supabase.p_limit := Some 365 |} |}.

Definition outcomeCall (filters : CallsFilters.t) : Supabase.RpcCall :=
  {| Supabase.fn := "get_outcome_distribution";
     Supabase.args :=
       {| Supabase.p_outcome := or_null (CallsFilters.outcome filters);
          Supabase.p_date_from := or_null (CallsFilters.dateFrom filters);
          Supabase.p_date_to := or_null (CallsFilters.dateTo filters);
          Supabase.p_customer_number :=
            or_null (CallsFilters.customerNumber filters);
          Supabase.p_limit := None |} |}.

Definition hourlyCall (filters : CallsFilters.t) : Supabase.RpcCall :=
  {| Supabase.fn := "get_hourly_call_distribution";
     Supabase.args :=
       {| Supabase.p_outcome := or_null (CallsFilters.outcome filters);
          Supabase.p_date_from := or_null (CallsFilters.dateFrom filters);
          Supabase.p_date_to := or_null (CallsFilters.dateTo filters);
          Supabase.p_customer_number :=
            or_null (CallsFilters.customerNumber filters);
          Supabase.p_limit := None |} |}.

(** The four filter arguments of a call, without [p_limit]. *)
Definition filterArgs (c : Supabase.RpcCall)
  : option string * option string * option string * option string :=
  (Supabase.p_outcome (Supabase.args c),
   Supabase.p_date_from (Supabase.args c),
   Supabase.p_date_to (Supabase.args c),
   Supabase.p_customer_number (Supabase.args c)).

End CallsQueries.

(** ** CallsChart: colours, date range and card descriptions *)

Module CallsChartCards.
Import CallsChart.

Definition COLORS : list string :=
  ["#10b981"; "#6366f1"; "#f59e0b"; "#ef4444"; "#8b5cf6"; "#06b6d4";
   "#fde68a"; "#e879f9"; "#fbbf24"]%string.

(** [COLORS[index % COLORS.length]], the [fill] of the slice at [index];
    [None] stands for [undefined]. *)
Definition cellFill (index : nat) : option string :=
  nth_error COLORS (index mod List.length COLORS).

(** [chartData && (chartData.daily.length > 0 ||
    chartData.outcomes.length > 0)], as a truth value. *)
Definition hasData (chartData : option ChartData) : bool :=
  match chartData with
  | Some c =>
      (0 <? List.length (daily c))%nat || (0 <? List.length (outcomes c))%nat
  | None => false
  end.

(** The total of a series of counts. *)
Definition total (counts : list Z) : Z := fold_right Z.add 0 counts.

Section DateRange.

Variable Date : Type.
Variable parseISO : option (string -> Date).
Variable formatInTimeZone : Date -> string -> string -> string.

(** [formatInTimeZone(parseISO(chartData.daily[index].call_date),
    'America/New_York', 'MMM dd, yyyy')]: reading [call_date] of a missing
    row throws, and so does the call of an unbound [parseISO]. *)
Definition formatRowAt (rows : list Daily.row) (index : nat)
  : JS.completion string :=
  match nth_error rows index with
  | Some row =>
      JS.bind (JS.call "parseISO" parseISO (Daily.call_date row)) (fun d =>
      JS.Normal (formatInTimeZone d "America/New_York" "MMM dd, yyyy"))
  | None => JS.Throw (JS.PropertyOfUndefined "call_date")
  end.

(** [dateRange]: the oldest and the newest fetched day, or a fixed text. *)
Definition dateRange (chartData : option ChartData)
  : JS.completion string :=
  match chartData with
  | Some c =>
      if hasData chartData && (0 <? List.length (daily c))%nat then
        JS.bind (formatRowAt (daily c) (List.length (daily c) - 1))
          (fun oldest =>
        JS.bind (formatRowAt (daily c) 0) (fun newest =>
        JS.Normal (oldest ++ " – " ++ newest ++ " ET")%string))
      else JS.Normal "No data available"%string
  | None => JS.Normal "No data available"%string
  end.

End DateRange.

End CallsChartCards.

(** ** Sample inputs *)

Module Samples.
Import CallsChart.

(** The input of the spec's example: a single row for hour 3 with count 5. *)
Definition sparse_hourly : ChartData :=
  {| daily := []; outcomes := [];
     hourly := [ {| Hourly.call_hour := 3; Hourly.call_count := 5 |} ] |}.

(** Two fetched days, newest first, with an ISO date as its own display
    form. *)
Definition two_days : ChartData :=
  {| daily :=
       [ {| Daily.call_date := "2025-06-02"; Daily.call_count := 7;
            Daily.total_cost := 3 # 2; Daily.total_minutes := 21 # 1 |};
         {| Daily.call_date := "2025-06-01"; Daily.call_count := 4;
            Daily.total_cost := 1 # 2; Daily.total_minutes := 9 # 1 |} ];
     outcomes := []; hourly := [] |}.

(** Three hourly rows with distinct hours. *)
Definition busy_morning : ChartData :=
  {| daily := []; outcomes := [];
     hourly :=
       [ {| Hourly.call_hour := 9; Hourly.call_count := 12 |};
         {| Hourly.call_hour := 10; Hourly.call_count := 30 |};
         {| Hourly.call_hour := 14; Hourly.call_count := 8 |} ] |}.

Definition minutes_101 : CallsOverview.CallStatistics :=
  {| CallsOverview.total_calls := 41;
     CallsOverview.total_cost := 25 # 2;
     CallsOverview.total_minutes := 101 # 1;
     CallsOverview.successful_calls := 10;
     CallsOverview.success_rate := 25 # 1 |}.

Definition minutes_100 : CallsOverview.CallStatistics :=
  {| CallsOverview.total_calls := 40;
     CallsOverview.total_cost := 25 # 2;
     CallsOverview.total_minutes := 100 # 1;
     CallsOverview.successful_calls := 10;
     CallsOverview.success_rate := 25 # 1 |}.

End Samples.

(** * Properties *)

(** ** The pagination window *)

Module PaginationWindow.
Import CallsTable.

Lemma Zrange_length lo n : List.length (Zrange lo n) = n.
Proof. revert lo; induction n as [|n IH]; intros lo; simpl; auto. Qed.

Lemma Zrange_seq lo n :
  Zrange lo n = map (fun k => lo + Z.of_nat k) (seq 0 n).
Proof.
  revert lo; induction n as [|n IH]; intros lo; [reflexivity|].
  simpl. rewrite Z.add_0_r. f_equal.
  rewrite IH, <- seq_shift, map_map.
  apply map_ext; intros k; lia.
Qed.

Lemma Zrange_In lo n x : In x (Zrange lo n) <-> lo <= x < lo + Z.of_nat n.
Proof.
  revert lo; induction n as [|n IH]; intros lo; simpl.
  - lia.
  - rewrite IH. lia.
Qed.

Lemma Zrange_NoDup lo n : NoDup (Zrange lo n).
Proof.
  revert lo; induction n as [|n IH]; intros lo; simpl; constructor.
  - rewrite Zrange_In. lia.
  - apply IH.
Qed.

(** The loop appends the pages [i .. hi] to the array, and nothing when
    [hi < i]. *)
Lemma push_loop_spec i hi pages :
  push_loop i hi pages =
  pages ++ map Page (Zrange i (Z.to_nat (hi + 1 - i))).
Proof.
  funelim (push_loop i hi pages).
  - match goal with IH : push_loop _ _ _ = _ ++ _ |- _ => rewrite IH end.
    replace (Z.to_nat (hi + 1 - i)) with (S (Z.to_nat (hi + 1 - (i + 1))))
      by lia.
    simpl. rewrite <- app_assoc. reflexivity.
  - replace (Z.to_nat (hi + 1 - i)) with O by lia.
    simpl. rewrite app_nil_r. reflexivity.
Qed.

Lemma page_numbers_map_Page l : page_numbers (map Page l) = l.
Proof. induction l as [|x l IH]; simpl; congruence. Qed.

Lemma In_Ellipsis_map_Page l : ~ In Ellipsis (map Page l).
Proof.
  intros H. apply in_map_iff in H. destruct H as [x [Hx _]]. discriminate.
Qed.

Lemma small_window cp tp :
  tp <= 7 -> getVisiblePages cp tp = map Page (Zrange 1 (Z.to_nat tp)).
Proof.
  intros H. unfold getVisiblePages, maxVisible.
  destruct (Z.leb_spec tp 7); [|lia].
  rewrite push_loop_spec. simpl. do 2 f_equal. lia.
Qed.

Lemma near_start_window cp tp :
  7 < tp -> cp <= 4 ->
  getVisiblePages cp tp =
  [Page 1; Page 2; Page 3; Page 4; Page 5; Ellipsis; Page tp].
Proof.
  intros Ht Hc. unfold getVisiblePages, maxVisible.
  destruct (Z.leb_spec tp 7); [lia|].
  destruct (Z.leb_spec cp 4); [|lia].
  reflexivity.
Qed.

Lemma near_end_window cp tp :
  7 < tp -> 4 < cp -> tp - 3 <= cp ->
  getVisiblePages cp tp =
  [Page 1; Ellipsis; Page (tp - 4); Page (tp - 3); Page (tp - 2);
   Page (tp - 1); Page tp].
Proof.
  intros Ht Hc He. unfold getVisiblePages, maxVisible.
  destruct (Z.leb_spec tp 7); [lia|].
  destruct (Z.leb_spec cp 4); [lia|].
  unfold Z.geb. destruct (Z.compare_spec cp (tp - 3)); try lia;
    rewrite push_loop_spec;
    replace (tp + 1 - (tp - 4)) with 5 by lia; simpl;
    repeat (f_equal; try lia).
Qed.

Lemma middle_window cp tp :
  7 < tp -> 4 < cp < tp - 3 ->
  getVisiblePages cp tp =
  [Page 1; Ellipsis; Page (cp - 1); Page cp; Page (cp + 1); Ellipsis;
   Page tp].
Proof.
  intros Ht Hc. unfold getVisiblePages, maxVisible.
  destruct (Z.leb_spec tp 7); [lia|].
  destruct (Z.leb_spec cp 4); [lia|].
  unfold Z.geb. destruct (Z.compare_spec cp (tp - 3)); try lia.
  rewrite push_loop_spec.
  replace (cp + 1 + 1 - (cp - 1)) with 3 by lia. simpl.
  repeat (f_equal; try lia).
Qed.

Ltac solve_NoDup :=
  repeat (constructor; [simpl; intuition lia|]); constructor.

Ltac solve_Forall_bounds :=
  repeat (constructor; [lia|]); constructor.

(** C1: when [0 <= totalPages <= 7] (and [currentPage >= 1]) the window is
    exactly the pages [1, 2, ..., totalPages] in ascending order, and it
    holds no ellipsis marker. *)
Theorem small_total_lists_every_page (currentPage totalPages : Z) :
  0 <= totalPages <= 7 ->
  1 <= currentPage ->
  getVisiblePages currentPage totalPages =
    map (fun k => Page (Z.of_nat k)) (seq 1 (Z.to_nat totalPages))
  /\ ~ In Ellipsis (getVisiblePages currentPage totalPages).
Proof.
  intros Ht _. rewrite small_window by lia. split.
  - rewrite Zrange_seq, <- seq_shift, !map_map.
    apply map_ext; intros k. f_equal. lia.
  - apply In_Ellipsis_map_Page.
Qed.

Lemma small_total_lists_every_page_witness :
  getVisiblePages 2 3 =
    map (fun k => Page (Z.of_nat k)) (seq 1 (Z.to_nat 3))
  /\ ~ In Ellipsis (getVisiblePages 2 3).
Proof. apply (small_total_lists_every_page 2 3); lia. Defined.

(** C2: when [totalPages > 7] and [1 <= currentPage <= 4] the window is
    exactly [1, 2, 3, 4, 5, ellipsis, totalPages]. *)
Theorem near_start_exact (currentPage totalPages : Z) :
  7 < totalPages ->
  1 <= currentPage <= 4 ->
  getVisiblePages currentPage totalPages =
  [Page 1; Page 2; Page 3; Page 4; Page 5; Ellipsis; Page totalPages].
Proof. intros Ht Hc. apply near_start_window; lia. Qed.

Lemma near_start_exact_witness :
  getVisiblePages 3 12 =
  [Page 1; Page 2; Page 3; Page 4; Page 5; Ellipsis; Page 12].
Proof. apply (near_start_exact 3 12); lia. Defined.

(** C3: when [totalPages > 7], [currentPage > 4] and
    [currentPage >= totalPages - 3] the window is exactly
    [1, ellipsis, totalPages-4, totalPages-3, totalPages-2, totalPages-1,
    totalPages]. *)
Theorem near_end_exact (currentPage totalPages : Z) :
  7 < totalPages ->
  totalPages - 3 <= currentPage ->
  4 < currentPage ->
  getVisiblePages currentPage totalPages =
  [Page 1; Ellipsis; Page (totalPages - 4); Page (totalPages - 3);
   Page (totalPages - 2); Page (totalPages - 1); Page totalPages].
Proof. intros Ht He Hc. apply near_end_window; lia. Qed.

Lemma near_end_exact_witness :
  getVisiblePages 10 12 =
  [Page 1; Ellipsis; Page (12 - 4); Page (12 - 3); Page (12 - 2);
   Page (12 - 1); Page 12].
Proof. apply (near_end_exact 10 12); lia. Defined.

(** C4: when [totalPages > 7] and [4 < currentPage < totalPages - 3] the
    window is exactly [1, ellipsis, currentPage-1, currentPage,
    currentPage+1, ellipsis, totalPages]; for [totalPages = 20] and
    [currentPage = 10] it is [1, ellipsis, 9, 10, 11, ellipsis, 20]. *)
Theorem middle_exact :
  (forall currentPage totalPages : Z,
      7 < totalPages ->
      4 < currentPage < totalPages - 3 ->
      getVisiblePages currentPage totalPages =
      [Page 1; Ellipsis; Page (currentPage - 1); Page currentPage;
       Page (currentPage + 1); Ellipsis; Page totalPages])
  /\ getVisiblePages 10 20 =
     [Page 1; Ellipsis; Page 9; Page 10; Page 11; Ellipsis; Page 20].
Proof.
  split.
  - intros cp tp Ht Hc. apply middle_window; lia.
  - reflexivity.
Qed.

Lemma middle_exact_witness :
  getVisiblePages 6 15 =
  [Page 1; Ellipsis; Page (6 - 1); Page 6; Page (6 + 1); Ellipsis; Page 15].
Proof. apply (proj1 middle_exact 6 15); lia. Defined.

(** C5: for [currentPage >= 1] and [totalPages >= 0] the window holds no
    page number twice, every page number [n] in it has
    [1 <= n <= totalPages], it has at most 9 entries, and it is empty when
    [totalPages = 0]. *)
Theorem window_distinct_in_range_bounded (currentPage totalPages : Z) :
  1 <= currentPage ->
  0 <= totalPages ->
  NoDup (page_numbers (getVisiblePages currentPage totalPages))
  /\ Forall (fun n => 1 <= n <= totalPages)
            (page_numbers (getVisiblePages currentPage totalPages))
  /\ (List.length (getVisiblePages currentPage totalPages) <= 9)%nat
  /\ (totalPages = 0 -> getVisiblePages currentPage totalPages = []).
Proof.
  intros Hc Ht.
  destruct (Z_le_gt_dec totalPages 7) as [Hs|Hl].
  - rewrite small_window by lia. rewrite page_numbers_map_Page.
    repeat split.
    + apply Zrange_NoDup.
    + apply Forall_forall. intros n Hn. apply Zrange_In in Hn. lia.
    + rewrite length_map, Zrange_length. lia.
    + intros ->. reflexivity.
  - destruct (Z_le_gt_dec currentPage 4) as [Hn|Hn].
    + rewrite near_start_window by lia. simpl.
      repeat split; [solve_NoDup|solve_Forall_bounds|lia|lia].
    + destruct (Z_le_gt_dec (totalPages - 3) currentPage) as [He|He].
      * rewrite near_end_window by lia. simpl.
        repeat split; [solve_NoDup|solve_Forall_bounds|lia|lia].
      * rewrite middle_window by lia. simpl.
        repeat split; [solve_NoDup|solve_Forall_bounds|lia|lia].
Qed.

Lemma window_distinct_in_range_bounded_witness :
  NoDup (page_numbers (getVisiblePages 9 20))
  /\ Forall (fun n => 1 <= n <= 20) (page_numbers (getVisiblePages 9 20))
  /\ (List.length (getVisiblePages 9 20) <= 9)%nat
  /\ (20 = 0 -> getVisiblePages 9 20 = []).
Proof. apply (window_distinct_in_range_bounded 9 20); lia. Defined.

End PaginationWindow.

(** ** Chart data shaping *)

Module ChartShaping.
Import CallsChart Samples.

(** [find] returns the first element that passes the test. *)
Lemma find_first {A : Type} (f : A -> bool) (l : list A) :
  match find f l with
  | Some r =>
      exists pre post,
        l = pre ++ r :: post
        /\ Forall (fun x => f x = false) pre
        /\ f r = true
  | None => Forall (fun x => f x = false) l
  end.
Proof.
  induction l as [|a l IH]; simpl.
  - constructor.
  - destruct (f a) eqn:Ha.
    + exists [], l. repeat split; auto.
    + destruct (find f l) as [r|].
      * destruct IH as (pre & post & -> & Hpre & Hr).
        exists (a :: pre), post. repeat split; auto.
      * constructor; auto.
Qed.

Lemma hourlyData_nth (chartData : option ChartData) (h : nat) :
  (h < 24)%nat ->
  nth_error (hourlyData chartData) h = Some (hourEntry_of chartData h).
Proof.
  intros Hh. unfold hourlyData.
  rewrite nth_error_map, nth_error_seq.
  destruct (Nat.ltb_spec h 24); [reflexivity|lia].
Qed.

Lemma string_length_append (s1 s2 : string) :
  String.length (s1 ++ s2)%string
  = (String.length s1 + String.length s2)%nat.
Proof. induction s1 as [|c s1 IH]; simpl; congruence. Qed.

Lemma substring_prefix (n : nat) (s : string) :
  (n <= String.length s)%nat ->
  String.length (substring 0 n s) = n
  /\ exists rest, s = (substring 0 n s ++ rest)%string.
Proof.
  revert s; induction n as [|n IH]; intros s Hn.
  - split; [destruct s; reflexivity|].
    exists s. destruct s; reflexivity.
  - destruct s as [|c s]; simpl in Hn; [lia|].
    destruct (IH s) as [Hlen [rest Hrest]]; [lia|].
    simpl. split; [congruence|].
    exists rest. congruence.
Qed.

Lemma StronglySorted_snoc {A : Type} (R : A -> A -> Prop) (l : list A) a :
  StronglySorted R l ->
  Forall (fun x => R x a) l ->
  StronglySorted R (l ++ [a]).
Proof.
  induction 1 as [|x l Hl IH Hx]; intros Ha; simpl.
  - repeat constructor.
  - inversion Ha; subst. constructor; [apply IH; assumption|].
    apply Forall_app; split; [assumption|]. repeat constructor; assumption.
Qed.

Lemma StronglySorted_rev {A : Type} (R : A -> A -> Prop) (l : list A) :
  StronglySorted (fun a b => R b a) l -> StronglySorted R (rev l).
Proof.
  induction 1 as [|x l Hl IH Hx]; simpl.
  - constructor.
  - apply StronglySorted_snoc; [assumption|].
    apply Forall_forall. intros y Hy. apply in_rev in Hy.
    rewrite Forall_forall in Hx. apply Hx; assumption.
Qed.

(** C6: whatever the hourly rows are, [hourlyData] has exactly 24 entries;
    the entry at index [h] is the one for hour [h] (label [h:00]) and carries
    the count of the first row whose [call_hour] is [h], or 0 when there is
    no such row.  For the single row (hour 3, count 5) the entry for hour 3
    has count 5 and the 23 others have count 0. *)
Theorem hourly_densified :
  (forall c : ChartData,
      List.length (hourlyData (Some c)) = 24%nat
      /\ forall h : nat, (h < 24)%nat ->
         exists e,
           nth_error (hourlyData (Some c)) h = Some e
           /\ HourEntry.hour e = hour_label h
           /\ ((exists pre r post,
                   hourly c = pre ++ r :: post
                   /\ Forall (fun r' => Hourly.call_hour r' <> Z.of_nat h) pre
                   /\ Hourly.call_hour r = Z.of_nat h
                   /\ HourEntry.calls e = Hourly.call_count r)
               \/ (Forall (fun r' => Hourly.call_hour r' <> Z.of_nat h)
                          (hourly c)
                   /\ HourEntry.calls e = 0)))
  /\ map HourEntry.calls (hourlyData (Some sparse_hourly)) =
     [0; 0; 0; 5; 0; 0; 0; 0; 0; 0; 0; 0; 0; 0; 0; 0; 0; 0; 0; 0; 0; 0; 0; 0]
  /\ map HourEntry.hour (hourlyData (Some sparse_hourly)) =
     ["0:00"; "1:00"; "2:00"; "3:00"; "4:00"; "5:00"; "6:00"; "7:00";
      "8:00"; "9:00"; "10:00"; "11:00"; "12:00"; "13:00"; "14:00"; "15:00";
      "16:00"; "17:00"; "18:00"; "19:00"; "20:00"; "21:00"; "22:00";
      "23:00"]%string.
Proof.
  split; [|split; reflexivity].
  intros c. split; [reflexivity|].
  intros h Hh. exists (hourEntry_of (Some c) h).
  split; [apply hourlyData_nth; assumption|].
  split; [reflexivity|].
  unfold hourEntry_of, hourCalls, Number; simpl.
  pose proof
    (find_first (fun r => Hourly.call_hour r =? Z.of_nat h) (hourly c)) as Hf.
  destruct (find _ (hourly c)) as [r|].
  - left. destruct Hf as (pre & post & Hl & Hpre & Hr).
    exists pre, r, post. repeat split; auto.
    + eapply Forall_impl; [|exact Hpre]. simpl. intros a Ha. lia.
    + lia.
  - right. split; [|reflexivity].
    eapply Forall_impl; [|exact Hf]. simpl. intros a Ha. lia.
Qed.

Lemma hourly_densified_witness :
  exists e,
    nth_error (hourlyData (Some sparse_hourly)) 3 = Some e
    /\ HourEntry.hour e = hour_label 3
    /\ ((exists pre r post,
            hourly sparse_hourly = pre ++ r :: post
            /\ Forall (fun r' => Hourly.call_hour r' <> Z.of_nat 3) pre
            /\ Hourly.call_hour r = Z.of_nat 3
            /\ HourEntry.calls e = Hourly.call_count r)
        \/ (Forall (fun r' => Hourly.call_hour r' <> Z.of_nat 3)
                   (hourly sparse_hourly)
            /\ HourEntry.calls e = 0)).
Proof.
  apply (proj2 (proj1 hourly_densified sparse_hourly) 3%nat). lia.
Defined.

(** C7: the display label of an outcome name [s] is [s] itself when [s] has
    at most 12 characters, and the first 12 characters of [s] followed by
    ["..."] when it has more; so a 15-character name becomes its first 12
    characters plus the ellipsis and a 10-character name is unchanged.  The
    label is the [displayName] of the name's [pieData] entry. *)
Theorem outcome_label_truncated (item : OutcomeRow) :
  let s := outcome_name item in
  displayName (pieEntry_of item) = truncate_name s
  /\ name (pieEntry_of item) = s
  /\ ((String.length s <= 12)%nat -> truncate_name s = s)
  /\ ((12 < String.length s)%nat ->
      exists first12 rest,
        s = (first12 ++ rest)%string
        /\ String.length first12 = 12%nat
        /\ truncate_name s = (first12 ++ "...")%string)
  /\ (String.length s = 15%nat ->
      exists first12 rest,
        s = (first12 ++ rest)%string
        /\ String.length first12 = 12%nat
        /\ String.length rest = 3%nat
        /\ truncate_name s = (first12 ++ "...")%string)
  /\ (String.length s = 10%nat -> truncate_name s = s).
Proof.
  intros s.
  assert (Hshort : (String.length s <= 12)%nat -> truncate_name s = s).
  { intros H. unfold truncate_name.
    destruct (Nat.ltb_spec 12 (String.length s)); [lia|reflexivity]. }
  assert (Hlong : (12 < String.length s)%nat ->
            exists first12 rest,
              s = (first12 ++ rest)%string
              /\ String.length first12 = 12%nat
              /\ truncate_name s = (first12 ++ "...")%string).
  { intros H. unfold truncate_name.
    destruct (Nat.ltb_spec 12 (String.length s)); [|lia].
    destruct (substring_prefix 12 s) as [Hlen [rest Hrest]]; [lia|].
    exists (substring 0 12 s), rest. auto. }
  repeat split; auto.
  - intros H15. destruct Hlong as (p & rest & Hs & Hp & Ht); [lia|].
    exists p, rest. repeat split; auto.
    rewrite Hs, string_length_append in H15. lia.
  - intros H10. apply Hshort. lia.
Qed.

(** The legend does not show [displayName]: its own formatter cuts names
    at 15 characters, so a 15-character name appears there unchanged while
    its [displayName] is cut at 12. *)
Remark legend_uses_its_own_threshold :
  legendFormatter "Callback needed" = "Callback needed"%string
  /\ truncate_name "Callback needed" = "Callback nee..."%string.
Proof. split; reflexivity. Qed.

Lemma outcome_label_truncated_witness :
  (exists first12 rest,
      "Callback needed"%string = (first12 ++ rest)%string
      /\ String.length first12 = 12%nat
      /\ String.length rest = 3%nat
      /\ truncate_name "Callback needed" = (first12 ++ "...")%string)
  /\ truncate_name "Wrong number" = "Wrong number"%string.
Proof.
  pose (long := {| outcome_name := "Callback needed"; outcome_count := 4 |}).
  pose (short := {| outcome_name := "Wrong number"; outcome_count := 2 |}).
  split.
  - apply (proj1 (proj2 (proj2 (proj2 (proj2
             (outcome_label_truncated long)))))).
    reflexivity.
  - apply (proj1 (proj2 (proj2 (outcome_label_truncated short)))).
    simpl; lia.
Defined.

Lemma array_map_normal {A B : Type} (f : A -> B) (l : list A) :
  JS.array_map (fun x => JS.Normal (f x)) l = JS.Normal (map f l).
Proof.
  induction l as [|x l IH]; simpl; [reflexivity|].
  rewrite IH. reflexivity.
Qed.

Lemma array_map_throws {A B : Type} (callback : A -> JS.completion B)
  (x : A) (l : list A) (e : JS.Error) :
  callback x = JS.Throw e -> JS.array_map callback (x :: l) = JS.Throw e.
Proof. intros H. simpl. rewrite H. reflexivity. Qed.

Section DailySeriesFacts.

Variable Date : Type.
Variable formatInTimeZone : Date -> string -> string -> string.

(** C8: with [parseISO] imported from ['date-fns-tz'], which has no such
    export, the daily series is produced only for an empty list of rows; as
    soon as one daily row is fetched the callback throws a [TypeError] on the
    first row, and no series results. *)
Theorem daily_series_throws_on_rows (c : ChartData) :
  (daily c = [] ->
   dailyStats Date (imported_parseISO Date) formatInTimeZone (Some c)
   = JS.Normal [])
  /\ (daily c <> [] ->
      dailyStats Date (imported_parseISO Date) formatInTimeZone (Some c)
      = JS.Throw (JS.NotAFunction "parseISO")).
Proof.
  unfold dailyStats. split.
  - intros ->. reflexivity.
  - intros Hne. destruct (daily c) as [|newest rest]; [congruence|].
    rewrite (array_map_throws _ _ _ (JS.NotAFunction "parseISO"));
      reflexivity.
Qed.

(** Had [parseISO] been bound to a function [parse], the series would be
    what the claim says: the rows in reversed order, each turned into its
    formatted date and its count, cost and minutes; of the same length; and
    ascending when the rows are descending. *)
Lemma daily_series_reversed (parse : string -> Date) (c : ChartData) :
  dailyStats Date (Some parse) formatInTimeZone (Some c)
  = JS.Normal (map (dailyStat_with Date formatInTimeZone parse) (rev (daily c)))
  /\ List.length (map (dailyStat_with Date formatInTimeZone parse) (rev (daily c)))
     = List.length (daily c)
  /\ Permutation (rev (daily c)) (daily c)
  /\ forall before : Daily.row -> Daily.row -> Prop,
       StronglySorted (fun a b => before b a) (daily c) ->
       StronglySorted before (rev (daily c)).
Proof.
  repeat split.
  - unfold dailyStats, dailyStat_of, JS.call. simpl.
    rewrite (array_map_normal (dailyStat_with Date formatInTimeZone parse)). simpl.
    rewrite map_rev. reflexivity.
  - rewrite length_map, length_rev. reflexivity.
  - apply Permutation_sym, Permutation_rev.
  - intros before. apply StronglySorted_rev.
Qed.

End DailySeriesFacts.

Lemma daily_series_throws_on_rows_witness :
  dailyStats string (imported_parseISO string) (fun d _ _ => d)
    (Some two_days)
  = JS.Throw (JS.NotAFunction "parseISO").
Proof.
  apply (proj2 (daily_series_throws_on_rows string (fun d _ _ => d)
                  two_days)).
  discriminate.
Defined.

End ChartShaping.

(** ** The "Total Minutes" card *)

Module TotalMinutes.
Import CallsOverview Samples.

Lemma rounded_up_eq (s : CallStatistics) :
  roundedUpMinutes (Some s) = Qceiling (total_minutes s / 3) * 3.
Proof.
  unfold roundedUpMinutes, totalMinutesRaw, Math_ceil, CallsChart.Number.
  destruct (Qeq_bool (total_minutes s) 0) eqn:Hz; [|reflexivity].
  apply Qeq_bool_eq in Hz. rewrite Hz. reflexivity.
Qed.

(** C10: the "Total Minutes" card shows, not [total_minutes], but
    [ceil(total_minutes / 3) * 3]; for a non-negative [total_minutes] this
    number is a multiple of 3, is at least [total_minutes], and exceeds it by
    strictly less than 3. *)
Theorem total_minutes_rounded_up_to_3 (s : CallStatistics) :
  (0 <= total_minutes s)%Q ->
  totalMinutesValue (Some s) =
    (NilZero.string_of_int (Z.to_int (roundedUpMinutes (Some s))) ++ "m")%string
  /\ roundedUpMinutes (Some s) = Qceiling (total_minutes s / 3) * 3
  /\ (3 | roundedUpMinutes (Some s))
  /\ (total_minutes s <= inject_Z (roundedUpMinutes (Some s)))%Q
  /\ (inject_Z (roundedUpMinutes (Some s)) < total_minutes s + 3)%Q.
Proof.
  intros _. split; [reflexivity|].
  rewrite rounded_up_eq. split; [reflexivity|].
  split; [exists (Qceiling (total_minutes s / 3)); reflexivity|].
  pose proof (Qle_ceiling (total_minutes s / 3)) as Hle.
  pose proof (Qceiling_lt (total_minutes s / 3)) as Hlt.
  set (k := Qceiling (total_minutes s / 3)) in *.
  assert (Hx : (total_minutes s == (total_minutes s / 3) * 3)%Q)
    by (field; discriminate).
  rewrite inject_Z_mult.
  unfold Z.sub in Hlt. rewrite inject_Z_plus, inject_Z_opp in Hlt.
  change (inject_Z 1) with 1%Q in Hlt.
  change (inject_Z 3) with 3%Q.
  set (q := (total_minutes s / 3)%Q) in *.
  clearbody k q.
  split; lra.
Qed.

Lemma total_minutes_rounded_up_to_3_witness :
  totalMinutesValue (Some minutes_100) = "102m"%string
  /\ roundedUpMinutes (Some minutes_100) = Qceiling ((100 # 1) / 3) * 3
  /\ (3 | roundedUpMinutes (Some minutes_100))
  /\ (100 # 1 <= inject_Z (roundedUpMinutes (Some minutes_100)))%Q
  /\ (inject_Z (roundedUpMinutes (Some minutes_100)) < (100 # 1) + 3)%Q.
Proof.
  apply (total_minutes_rounded_up_to_3 minutes_100).
  unfold Qle; simpl; lia.
Defined.

End TotalMinutes.

(** ** Filter changes and the current page *)

Module PageReset.
Import CallsDashboard.

Lemma runEffects_settled_noop st : settled st -> runEffects st = st.
Proof.
  intros [Hd _]. unfold runEffects, deps_changed.
  rewrite Hd, Nat.eqb_refl. reflexivity.
Qed.

(** After [setFilters] the dependency of the effect has changed, so the
    effect runs and sets the page to 1. *)
Lemma runEffects_setFilters newFilters st :
  settled st ->
  runEffects (setFilters newFilters st) =
  {| filters := newFilters;
     filtersRef := nextRef st;
     currentPage := 1;
     callsData := callsData st;
     effectDeps := Some (nextRef st);
     nextRef := S (nextRef st) |}.
Proof.
  intros [Hd Hlt]. unfold runEffects, deps_changed. simpl. rewrite Hd.
  destruct (Nat.eqb_spec (filtersRef st) (nextRef st)); [lia|].
  reflexivity.
Qed.

Lemma handle_filter_change ev st :
  changes_filters ev = true ->
  exists newFilters, handle ev st = setFilters newFilters st.
Proof.
  destruct ev; simpl; try discriminate; intros _; eexists; reflexivity.
Qed.

Lemma handle_other_refs ev st :
  changes_filters ev = false ->
  effectDeps (handle ev st) = effectDeps st
  /\ filtersRef (handle ev st) = filtersRef st
  /\ nextRef (handle ev st) = nextRef st.
Proof.
  destruct ev; simpl; try discriminate; intros _;
    repeat match goal with
           | |- context [if ?b then _ else _] => destruct b
           end; simpl; auto.
Qed.

Lemma step_settled ev st : settled st -> settled (step ev st).
Proof.
  intros Hs. unfold step.
  destruct (changes_filters ev) eqn:Hev.
  - destruct (handle_filter_change ev st Hev) as [nf ->].
    rewrite runEffects_setFilters by assumption.
    split; simpl; [reflexivity|lia].
  - destruct (handle_other_refs ev st Hev) as (Hd & Hr & Hn).
    assert (Hs' : settled (handle ev st)).
    { destruct Hs as [H1 H2]. split; [congruence|lia]. }
    rewrite runEffects_settled_noop; assumption.
Qed.

Lemma reachable_settled st : reachable st -> settled st.
Proof.
  induction 1 as [|ev st Hr IH].
  - split; simpl; [reflexivity|lia].
  - apply step_settled; assumption.
Qed.

Lemma step_filter_change ev st :
  reachable st ->
  changes_filters ev = true ->
  currentPage (step ev st) = 1
  /\ callsData (step ev st) = callsData st.
Proof.
  intros Hr Hev. unfold step.
  destruct (handle_filter_change ev st Hev) as [nf ->].
  rewrite runEffects_setFilters by (apply reachable_settled; assumption).
  split; reflexivity.
Qed.

Lemma window_page_positive cp tp n :
  In (CallsTable.Page n) (CallsTable.getVisiblePages cp tp) -> 1 <= n.
Proof.
  intros Hin.
  destruct (Z_le_gt_dec tp 7) as [Hs|Hl].
  - rewrite PaginationWindow.small_window in Hin by lia.
    apply in_map_iff in Hin. destruct Hin as (x & Hx & Hin).
    apply PaginationWindow.Zrange_In in Hin. inversion Hx; subst. lia.
  - destruct (Z_le_gt_dec cp 4) as [Hn|Hn];
      [rewrite PaginationWindow.near_start_window in Hin by lia|
       destruct (Z_le_gt_dec (tp - 3) cp) as [He|He];
       [rewrite PaginationWindow.near_end_window in Hin by lia|
        rewrite PaginationWindow.middle_window in Hin by lia]];
      simpl in Hin;
      repeat (destruct Hin as [Hin|Hin];
              [try discriminate; inversion Hin; subst; lia|]);
      contradiction.
Qed.

(** No reachable state has a current page below 1. *)
Lemma reachable_page_positive st : reachable st -> 1 <= currentPage st.
Proof.
  induction 1 as [|ev st Hr IH]; [simpl; lia|].
  destruct (changes_filters ev) eqn:Hev.
  - destruct (step_filter_change ev st Hr Hev) as [-> _]. lia.
  - unfold step.
    assert (Hs : settled (handle ev st)).
    { destruct (handle_other_refs ev st Hev) as (Hd & Hf & Hn).
      destruct (reachable_settled st Hr) as [H1 H2].
      split; [congruence|lia]. }
    rewrite runEffects_settled_noop by assumption.
    destruct ev; simpl in *; try discriminate; try assumption.
    + destruct ((totalPagesProp st >? 1) && (currentPage st >? 1)) eqn:Hg;
        simpl; [|assumption].
      apply andb_prop in Hg. destruct Hg as [_ Hg]. lia.
    + destruct (page_link_shown page st) eqn:Hg; simpl; [|assumption].
      unfold page_link_shown in Hg.
      apply andb_prop in Hg. destruct Hg as [_ Hg].
      apply existsb_exists in Hg. destruct Hg as (e & Hin & He).
      destruct (CallsTable.PageEntry_eq_dec e (CallsTable.Page page));
        [subst e|discriminate].
      eapply window_page_positive; eassumption.
    + destruct ((totalPagesProp st >? 1)
                && (currentPage st <? totalPagesProp st)) eqn:Hg;
        simpl; [lia|assumption].
Qed.

(** Outside filter changes the page is not clamped: with 57 calls (6 pages)
    and page 5 selected, a refetch that finds 12 calls (2 pages) leaves the
    dashboard on page 5. *)
Remark refetch_keeps_page :
  let st :=
    step (QuerySettled (Some 12))
      (step (ClickPageLink 5) (step (QuerySettled (Some 57)) initial)) in
  reachable st /\ currentPage st = 5 /\ totalPagesProp st = 2.
Proof. repeat split. repeat constructor. Qed.

(** C9: the dashboard starts on page 1, and from any reachable state every
    transition that calls [onFiltersChange] (replacing one field, or clearing
    all of them) leaves the current page at 1; hence
    [1 <= currentPage <= max(1, totalPages)] holds after every filter
    change. *)
Theorem filter_change_resets_page :
  currentPage initial = 1
  /\ forall (st : State) (ev : Event),
       reachable st ->
       changes_filters ev = true ->
       currentPage (step ev st) = 1
       /\ 1 <= currentPage (step ev st)
            <= Z.max 1 (totalPagesProp (step ev st)).
Proof.
  split; [reflexivity|].
  intros st ev Hr Hev.
  destruct (step_filter_change ev st Hr Hev) as [Hp _].
  rewrite Hp. split; [reflexivity|lia].
Qed.

Lemma filter_change_resets_page_witness :
  let st :=
    step (ClickPageLink 3) (step (QuerySettled (Some 57)) initial) in
  currentPage st = 3
  /\ currentPage (step (InputDateFrom "2025-06-01") st) = 1
  /\ 1 <= currentPage (step (InputDateFrom "2025-06-01") st)
       <= Z.max 1 (totalPagesProp (step (InputDateFrom "2025-06-01") st)).
Proof.
  intros st. split; [reflexivity|].
  apply (proj2 filter_change_resets_page st (InputDateFrom "2025-06-01")).
  - unfold st. repeat constructor.
  - reflexivity.
Defined.

End PageReset.

(** ** More on the pagination window *)

Module WindowShape.
Import CallsTable CallsTableLinks.

(** The four regimes of [getVisiblePages], with the window of each. *)
Lemma window_cases cp tp :
  (tp <= 7
   /\ getVisiblePages cp tp = map Page (Zrange 1 (Z.to_nat tp)))
  \/ (7 < tp /\ cp <= 4
      /\ getVisiblePages cp tp =
         [Page 1; Page 2; Page 3; Page 4; Page 5; Ellipsis; Page tp])
  \/ (7 < tp /\ 4 < cp /\ tp - 3 <= cp
      /\ getVisiblePages cp tp =
         [Page 1; Ellipsis; Page (tp - 4); Page (tp - 3); Page (tp - 2);
          Page (tp - 1); Page tp])
  \/ (7 < tp /\ 4 < cp < tp - 3
      /\ getVisiblePages cp tp =
         [Page 1; Ellipsis; Page (cp - 1); Page cp; Page (cp + 1); Ellipsis;
          Page tp]).
Proof.
  destruct (Z_le_gt_dec tp 7) as [Hs|Hl].
  - left. split; [assumption|]. apply PaginationWindow.small_window; lia.
  - destruct (Z_le_gt_dec cp 4) as [Hn|Hn].
    + right; left. repeat split; try lia.
      apply PaginationWindow.near_start_window; lia.
    + destruct (Z_le_gt_dec (tp - 3) cp) as [He|He].
      * right; right; left. repeat split; try lia.
        apply PaginationWindow.near_end_window; lia.
      * right; right; right. repeat split; try lia.
        apply PaginationWindow.middle_window; lia.
Qed.

Lemma In_Page_page_numbers n l : In (Page n) l <-> In n (page_numbers l).
Proof.
  induction l as [|[m|] l IH]; simpl.
  - tauto.
  - rewrite <- IH. split; intros [H|H]; auto; left; congruence.
  - rewrite <- IH. split; [intros [H|H]; [discriminate|assumption]|auto].
Qed.

Lemma page_numbers_app l1 l2 :
  page_numbers (l1 ++ l2) = page_numbers l1 ++ page_numbers l2.
Proof.
  induction l1 as [|[m|] l1 IH]; simpl; congruence.
Qed.

Lemma Zrange_sorted lo n : StronglySorted Z.lt (Zrange lo n).
Proof.
  revert lo; induction n as [|n IH]; intros lo; simpl; constructor.
  - apply IH.
  - apply Forall_forall. intros x Hx.
    apply PaginationWindow.Zrange_In in Hx. lia.
Qed.

Lemma Zrange_adjacent lo n pre a b post :
  Zrange lo n = pre ++ a :: b :: post -> b = a + 1.
Proof.
  revert lo pre; induction n as [|n IH]; intros lo pre H; simpl in H.
  - destruct pre; discriminate.
  - destruct pre as [|x pre]; simpl in H.
    + destruct n as [|n]; simpl in H; [discriminate|].
      inversion H; subst. reflexivity.
    + inversion H; subst. eapply IH; eassumption.
Qed.

Lemma window_ascending cp tp :
  StronglySorted Z.lt (page_numbers (getVisiblePages cp tp)).
Proof.
  destruct (window_cases cp tp)
    as [[H ->]|[(H1 & H2 & ->)|[(H1 & H2 & H3 & ->)|(H1 & H2 & ->)]]].
  - rewrite PaginationWindow.page_numbers_map_Page. apply Zrange_sorted.
  - simpl. repeat (constructor; [|repeat (constructor; try lia)]).
    constructor.
  - simpl. repeat (constructor; [|repeat (constructor; try lia)]).
    constructor.
  - simpl. repeat (constructor; [|repeat (constructor; try lia)]).
    constructor.
Qed.

Lemma StronglySorted_lt_NoDup l : StronglySorted Z.lt l -> NoDup l.
Proof.
  induction 1 as [|x l Hl IH Hx]; constructor; [|assumption].
  intros Hin. rewrite Forall_forall in Hx. specialize (Hx x Hin). lia.
Qed.

Lemma window_has_current cp tp :
  1 <= cp <= tp -> In cp (page_numbers (getVisiblePages cp tp)).
Proof.
  intros Hc.
  destruct (window_cases cp tp)
    as [[H ->]|[(H1 & H2 & ->)|[(H1 & H2 & H3 & ->)|(H1 & H2 & ->)]]].
  - rewrite PaginationWindow.page_numbers_map_Page.
    apply PaginationWindow.Zrange_In. lia.
  - simpl. lia.
  - simpl. lia.
  - simpl. lia.
Qed.

Lemma window_pages_in_range cp tp n :
  In n (page_numbers (getVisiblePages cp tp)) -> 1 <= n <= tp.
Proof.
  destruct (window_cases cp tp)
    as [[H ->]|[(H1 & H2 & ->)|[(H1 & H2 & H3 & ->)|(H1 & H2 & ->)]]].
  - rewrite PaginationWindow.page_numbers_map_Page.
    intros Hin. apply PaginationWindow.Zrange_In in Hin. lia.
  - simpl. lia.
  - simpl. lia.
  - simpl. lia.
Qed.

Lemma activeFlags_count cp l :
  count_occ bool_dec (activeFlags cp l) true
  = count_occ Z.eq_dec (page_numbers l) cp.
Proof.
  induction l as [|[n|] l IH]; simpl; auto.
  unfold isActive.
  destruct (Z.eqb_spec cp n), (Z.eq_dec n cp); try congruence;
    destruct (bool_dec _ _); try congruence.
Qed.

Lemma snoc_of_rev {A : Type} (l r : list A) x :
  rev l = x :: r -> l = rev r ++ [x].
Proof.
  intros H. rewrite <- (rev_involutive l), H. reflexivity.
Qed.

End WindowShape.

Module WindowFacts.
Import CallsTable CallsTableLinks WindowShape.

(** X1: whenever the current page is an existing page
    ([1 <= currentPage <= totalPages]), the window holds a link for it. *)
Theorem current_page_is_shown (currentPage totalPages : Z) :
  1 <= currentPage <= totalPages ->
  In (Page currentPage) (getVisiblePages currentPage totalPages).
Proof.
  intros Hc. apply In_Page_page_numbers, window_has_current; assumption.
Qed.

Lemma current_page_is_shown_witness :
  In (Page 17) (getVisiblePages 17 40).
Proof. apply (current_page_is_shown 17 40); lia. Defined.

(** X2: when there is at least one page, the window starts with page 1 and
    ends with the last page, whatever the current page is. *)
Theorem window_starts_at_1_ends_at_total (currentPage totalPages : Z) :
  1 <= totalPages ->
  hd_error (getVisiblePages currentPage totalPages) = Some (Page 1)
  /\ hd_error (rev (getVisiblePages currentPage totalPages))
     = Some (Page totalPages).
Proof.
  intros Ht.
  destruct (window_cases currentPage totalPages)
    as [[H ->]|[(H1 & H2 & ->)|[(H1 & H2 & H3 & ->)|(H1 & H2 & ->)]]];
    try (split; reflexivity).
  assert (Hn : totalPages = 1 \/ totalPages = 2 \/ totalPages = 3
               \/ totalPages = 4 \/ totalPages = 5 \/ totalPages = 6
               \/ totalPages = 7) by lia.
  repeat (destruct Hn as [->|Hn]; [split; reflexivity|]).
  subst. split; reflexivity.
Qed.

Lemma window_starts_at_1_ends_at_total_witness :
  hd_error (getVisiblePages 30 12) = Some (Page 1)
  /\ hd_error (rev (getVisiblePages 30 12)) = Some (Page 12).
Proof. apply (window_starts_at_1_ends_at_total 30 12); lia. Defined.

(** X3: the page numbers of a window are strictly increasing from left to
    right, for every current page and page count. *)
Theorem window_strictly_ascending (currentPage totalPages : Z) :
  StronglySorted Z.lt (page_numbers (getVisiblePages currentPage totalPages)).
Proof. apply window_ascending. Qed.

(** X4: the window has exactly [min(totalPages, 7)] entries (none for a
    page count below 1): seven entries, ellipses included, as soon as there
    are more than seven pages. *)
Theorem window_length (currentPage totalPages : Z) :
  List.length (getVisiblePages currentPage totalPages)
  = Z.to_nat (Z.min totalPages 7).
Proof.
  destruct (window_cases currentPage totalPages)
    as [[H ->]|[(H1 & H2 & ->)|[(H1 & H2 & H3 & ->)|(H1 & H2 & ->)]]].
  - rewrite length_map, PaginationWindow.Zrange_length. f_equal. lia.
  - simpl. lia.
  - simpl. lia.
  - simpl. lia.
Qed.

(** Splitting a window of explicit entries at every position. *)
Ltac split_at H :=
  repeat match type of H with
         | [] = ?pre ++ _ => destruct pre; discriminate H
         | _ :: _ = ?pre ++ _ =>
             destruct pre as [|? pre]; simpl in H;
             [ | injection H as ? H; subst ]
         end.

Ltac adjacent_pages H := split_at H; inversion H; subst; lia.

Ltac around_ellipsis H :=
  split_at H; inversion H; subst;
  refine (ex_intro _ (rev _) _); do 3 eexists;
  (split; [apply snoc_of_rev; simpl; reflexivity|]);
  (split; [reflexivity|lia]).

(** X5: the window is faithful about what it leaves out: two page numbers
    next to each other are consecutive pages, and every ellipsis stands
    between two page numbers [a] and [b] with at least two pages hidden
    between them ([a + 3 <= b]); so an ellipsis is never first, last or
    doubled. *)
Theorem window_gaps_are_marked (currentPage totalPages : Z) :
  (forall pre a b post,
      getVisiblePages currentPage totalPages = pre ++ Page a :: Page b :: post ->
      b = a + 1)
  /\ (forall pre post,
         getVisiblePages currentPage totalPages = pre ++ Ellipsis :: post ->
         exists pre' a b post',
           pre = pre' ++ [Page a]
           /\ post = Page b :: post'
           /\ a + 3 <= b).
Proof.
  destruct (window_cases currentPage totalPages)
    as [[H ->]|[(H1 & H2 & ->)|[(H1 & H2 & H3 & ->)|(H1 & H2 & ->)]]].
  - split.
    + intros pre a b post Hw.
      apply (f_equal page_numbers) in Hw.
      rewrite PaginationWindow.page_numbers_map_Page, page_numbers_app in Hw.
      simpl in Hw. eapply Zrange_adjacent; eassumption.
    + intros pre post Hw. exfalso.
      apply (PaginationWindow.In_Ellipsis_map_Page
               (Zrange 1 (Z.to_nat totalPages))).
      rewrite Hw. apply in_elt.
  - split.
    + intros pre a b post Hw. adjacent_pages Hw.
    + intros pre post Hw. around_ellipsis Hw.
  - split.
    + intros pre a b post Hw. adjacent_pages Hw.
    + intros pre post Hw. around_ellipsis Hw.
  - split.
    + intros pre a b post Hw. adjacent_pages Hw.
    + intros pre post Hw. around_ellipsis Hw.
Qed.

Lemma window_gaps_are_marked_witness :
  exists pre' a b post',
    [Page 1] = pre' ++ [Page a]
    /\ [Page 9; Page 10; Page 11; Ellipsis; Page 20] = Page b :: post'
    /\ a + 3 <= b.
Proof.
  apply (proj2 (window_gaps_are_marked 10 20) [Page 1]
           [Page 9; Page 10; Page 11; Ellipsis; Page 20]).
  reflexivity.
Defined.

(** X6: among the page links that the table renders, exactly one is marked
    active when the table is not loading, has more than one page and the
    current page is an existing page; none is when the current page is not
    an existing page; and no link is rendered at all while loading or with
    at most one page. *)
Theorem one_active_link (isLoading : bool) (currentPage totalPages : Z) :
  (isLoading = false -> 1 < totalPages ->
   1 <= currentPage <= totalPages ->
   count_occ bool_dec
     (renderedLinkFlags isLoading currentPage totalPages) true
   = 1%nat)
  /\ (~ (1 <= currentPage <= totalPages) ->
      count_occ bool_dec
        (renderedLinkFlags isLoading currentPage totalPages) true
      = 0%nat)
  /\ (totalPages <= 1 ->
      renderedLinkFlags isLoading currentPage totalPages = [])
  /\ renderedLinkFlags true currentPage totalPages = [].
Proof.
  unfold renderedLinkFlags. repeat split.
  - intros -> Ht Hc. destruct (Z.gtb_spec totalPages 1); [|lia].
    rewrite activeFlags_count. apply NoDup_count_occ'.
    + apply StronglySorted_lt_NoDup, window_ascending.
    + apply window_has_current; assumption.
  - intros Hc. destruct isLoading; [reflexivity|].
    destruct (totalPages >? 1); [|reflexivity].
    rewrite activeFlags_count. apply count_occ_not_In. intros Hin.
    apply window_pages_in_range in Hin. lia.
  - intros Ht. destruct isLoading; [reflexivity|].
    destruct (Z.gtb_spec totalPages 1); [lia|reflexivity].
Qed.

Lemma one_active_link_witness :
  count_occ bool_dec (renderedLinkFlags false 6 15) true = 1%nat
  /\ count_occ bool_dec (renderedLinkFlags false 9 2) true = 0%nat
  /\ renderedLinkFlags false 1 1 = [].
Proof.
  split; [|split].
  - apply (proj1 (one_active_link false 6 15)); [reflexivity|lia|lia].
  - apply (proj1 (proj2 (one_active_link false 9 2))); lia.
  - apply (proj1 (proj2 (proj2 (one_active_link false 1 1)))); lia.
Defined.

End WindowFacts.

(** ** Navigation and the filter form *)

Module DashboardFacts.
Import CallsDashboard CallsFiltersForm.

Lemma runEffects_filters st : filters (runEffects st) = filters st.
Proof. unfold runEffects. destruct (deps_changed st); reflexivity. Qed.

Lemma runEffects_callsData st : callsData (runEffects st) = callsData st.
Proof. unfold runEffects. destruct (deps_changed st); reflexivity. Qed.

(** Outside filter changes a transition from a reachable state is the
    handler alone: the effect does not run. *)
Lemma step_is_handle ev st :
  reachable st -> changes_filters ev = false -> step ev st = handle ev st.
Proof.
  intros Hr Hev. unfold step.
  apply PageReset.runEffects_settled_noop.
  destruct (PageReset.handle_other_refs ev st Hev) as (Hd & Hf & Hn).
  destruct (PageReset.reachable_settled st Hr) as [H1 H2].
  split; [congruence|lia].
Qed.

Lemma shown_link_in_range page st :
  page_link_shown page st = true -> 1 <= page <= totalPagesProp st.
Proof.
  unfold page_link_shown. intros Hg.
  apply andb_prop in Hg. destruct Hg as [_ Hg].
  apply existsb_exists in Hg. destruct Hg as (e & Hin & He).
  destruct (CallsTable.PageEntry_eq_dec e (CallsTable.Page page));
    [subst e|discriminate].
  apply WindowShape.In_Page_page_numbers in Hin.
  eapply WindowShape.window_pages_in_range; eassumption.
Qed.

Lemma or_undefined_normal v : normal_field (CallsFilters.or_undefined v).
Proof. destruct v; unfold normal_field; simpl; congruence. Qed.

Lemma updateFilter_normal f key v :
  normal f -> normal (CallsFilters.updateFilter f key v).
Proof.
  intros Hf key'. pose proof (Hf key') as Hk.
  destruct key, key'; simpl in *; auto using or_undefined_normal.
Qed.

Lemma empty_normal : normal CallsFilters.empty.
Proof. intros key. destruct key; unfold normal_field; simpl; congruence. Qed.

Lemma reachable_normal st : reachable st -> normal (filters st).
Proof.
  induction 1 as [|ev st Hr IH].
  - apply empty_normal.
  - unfold step. rewrite runEffects_filters.
    destruct ev; unfold handle;
      repeat match goal with
             | |- context [if ?b then _ else _] => destruct b
             end;
      first [ exact IH
            | exact (updateFilter_normal _ _ _ IH)
            | exact empty_normal ].
Qed.

Lemma or_else_or_undefined v : or_else (CallsFilters.or_undefined v) "" = v.
Proof. destruct v; reflexivity. Qed.

(** X7: a click on Previous, Next or a page link keeps the current page
    within [1 .. totalPages] of the table it was made on, and does not
    change the filters. *)
Theorem navigation_stays_in_range (st : State) (ev : Event) :
  reachable st ->
  ev = ClickPrevious \/ ev = ClickNext \/ (exists page, ev = ClickPageLink page) ->
  1 <= currentPage st <= totalPagesProp st ->
  1 <= currentPage (step ev st) <= totalPagesProp st
  /\ filters (step ev st) = filters st.
Proof.
  intros Hr Hev Hc.
  assert (Hnf : changes_filters ev = false)
    by (destruct Hev as [->|[->|[page ->]]]; reflexivity).
  rewrite (step_is_handle ev st Hr Hnf).
  destruct Hev as [->|[->|[page ->]]]; simpl.
  - destruct ((totalPagesProp st >? 1) && (currentPage st >? 1)) eqn:Hg;
      simpl; [|auto].
    apply andb_prop in Hg. destruct Hg as [_ Hg]. repeat split; lia.
  - destruct ((totalPagesProp st >? 1)
              && (currentPage st <? totalPagesProp st)) eqn:Hg;
      simpl; [|auto].
    apply andb_prop in Hg. destruct Hg as [_ Hg]. repeat split; lia.
  - destruct (page_link_shown page st) eqn:Hg; simpl; [|auto].
    apply shown_link_in_range in Hg. repeat split; lia.
Qed.

Lemma navigation_stays_in_range_witness :
  let st := step (QuerySettled (Some 57)) initial in
  1 <= currentPage (step ClickNext st) <= totalPagesProp st
  /\ filters (step ClickNext st) = filters st.
Proof.
  intros st. apply (navigation_stays_in_range st ClickNext).
  - unfold st. repeat constructor.
  - right; left; reflexivity.
  - vm_compute. split; discriminate.
Defined.

(** X8: Previous does nothing on page 1 and Next does nothing on the last
    page (or beyond it); on a page that is not the last, Next moves one page
    forward, and once the table has data again with more than one page,
    Previous leads back to the page it started from. *)
Theorem previous_next_edges (st : State) :
  reachable st ->
  (currentPage st <= 1 -> step ClickPrevious st = st)
  /\ (totalPagesProp st <= currentPage st -> step ClickNext st = st)
  /\ (1 <= currentPage st < totalPagesProp st ->
      currentPage (step ClickNext st) = currentPage st + 1
      /\ forall count,
           1 < totalPages (queryResult count) ->
           currentPage
             (step ClickPrevious
                (step (QuerySettled count) (step ClickNext st)))
           = currentPage st).
Proof.
  intros Hr. repeat split.
  - intros Hc. rewrite step_is_handle by (assumption || reflexivity). simpl.
    destruct (Z.gtb_spec (currentPage st) 1); [lia|].
    rewrite andb_false_r. reflexivity.
  - intros Hc. rewrite step_is_handle by (assumption || reflexivity). simpl.
    destruct (Z.ltb_spec (currentPage st) (totalPagesProp st)); [lia|].
    rewrite andb_false_r. reflexivity.
  - rewrite step_is_handle by (assumption || reflexivity). simpl.
    destruct (Z.gtb_spec (totalPagesProp st) 1); [|lia].
    destruct (Z.ltb_spec (currentPage st) (totalPagesProp st)); [|lia].
    reflexivity.
  - intros count Hcount.
    pose proof (reachable_step ClickNext st Hr) as Hr1.
    pose proof (reachable_step (QuerySettled count) _ Hr1) as Hr2.
    rewrite (step_is_handle ClickPrevious _ Hr2) by reflexivity.
    rewrite (step_is_handle (QuerySettled count) _ Hr1) by reflexivity.
    rewrite step_is_handle by (assumption || reflexivity). simpl.
    destruct (Z.gtb_spec (totalPagesProp st) 1); [|lia].
    destruct (Z.ltb_spec (currentPage st) (totalPagesProp st)); [|lia].
    simpl. unfold totalPagesProp at 1. simpl.
    change (CallsOverview.Math_ceil
              (inject_Z (count_or_0 count) / inject_Z CALLS_PER_PAGE))
      with (totalPages (queryResult count)).
    destruct (Z.gtb_spec (totalPages (queryResult count)) 1); [|lia].
    destruct (Z.gtb_spec (currentPage st + 1) 1); [|lia].
    simpl. lia.
Qed.

Lemma previous_next_edges_witness :
  let st := step (QuerySettled (Some 57)) initial in
  currentPage (step ClickNext st) = currentPage st + 1
  /\ forall count,
       1 < totalPages (queryResult count) ->
       currentPage
         (step ClickPrevious (step (QuerySettled count) (step ClickNext st)))
       = currentPage st.
Proof.
  intros st.
  apply (proj2 (proj2 (previous_next_edges st
                         ltac:(unfold st; repeat constructor)))).
  vm_compute. split; [discriminate|reflexivity].
Defined.

(** X9: in every state the dashboard can reach, the current page is at
    least 1. *)
Theorem page_never_below_1 (st : State) :
  reachable st -> 1 <= currentPage st.
Proof. apply PageReset.reachable_page_positive. Qed.

Lemma page_never_below_1_witness :
  1 <= currentPage
         (step ClickPrevious
            (step ClickPrevious (step (QuerySettled (Some 31)) initial))).
Proof. apply page_never_below_1. repeat constructor. Defined.

(** X10: in every reachable state no filter field holds the empty string
    (an emptied control removes its field), so the Clear button is hidden
    exactly when the filters equal the empty object. *)
Theorem filters_stay_normal (st : State) :
  reachable st ->
  normal (filters st)
  /\ (CallsFilters.hasActiveFilters (filters st) = false
      <-> filters st = CallsFilters.empty).
Proof.
  intros Hr. pose proof (reachable_normal st Hr) as Hn.
  split; [assumption|]. split.
  - intros Hf.
    pose proof (Hn CallsFilters.Key.outcome) as H1.
    pose proof (Hn CallsFilters.Key.dateFrom) as H2.
    pose proof (Hn CallsFilters.Key.dateTo) as H3.
    pose proof (Hn CallsFilters.Key.customerNumber) as H4.
    unfold normal_field in *. simpl in *.
    unfold CallsFilters.hasActiveFilters in Hf. simpl in Hf.
    destruct (filters st) as [o f t c]; simpl in *.
    destruct o as [[|? ?]|], f as [[|? ?]|], t as [[|? ?]|], c as [[|? ?]|];
      simpl in Hf; try discriminate; try congruence; reflexivity.
  - intros ->. reflexivity.
Qed.

Lemma filters_stay_normal_witness :
  let st := step (InputCustomerNumber "")
              (step (InputCustomerNumber "555") initial) in
  normal (filters st)
  /\ (CallsFilters.hasActiveFilters (filters st) = false
      <-> filters st = CallsFilters.empty).
Proof.
  intros st. apply (filters_stay_normal st). unfold st. repeat constructor.
Defined.

(** X11: every control shows what was last entered in it: a text or date
    input shows the typed value (also when emptied), and the outcome select
    shows the chosen item, for every non-empty item value; choosing ["all"]
    removes the outcome filter. *)
Theorem controls_show_the_entry (st : State) (value : string) :
  dateFromValue (filters (step (InputDateFrom value) st)) = value
  /\ dateToValue (filters (step (InputDateTo value) st)) = value
  /\ customerNumberValue (filters (step (InputCustomerNumber value) st))
     = value
  /\ (value <> EmptyString ->
      selectValue (filters (step (SelectOutcome value) st)) = value)
  /\ CallsFilters.outcome (filters (step (SelectOutcome "all") st)) = None.
Proof.
  unfold step. rewrite !runEffects_filters. simpl.
  unfold dateFromValue, dateToValue, customerNumberValue, selectValue. simpl.
  repeat split; try apply or_else_or_undefined.
  intros Hv. destruct (String.eqb_spec value "all") as [->|Hne].
  - reflexivity.
  - destruct value; [congruence|reflexivity].
Qed.

Lemma controls_show_the_entry_witness :
  selectValue (filters (step (SelectOutcome "Busy") initial)) = "Busy"%string.
Proof.
  apply (proj1 (proj2 (proj2 (proj2
           (controls_show_the_entry initial "Busy"))))).
  discriminate.
Defined.

(** X12: [updateFilter] is a map update on the four fields: the updated
    field reads back as the value (absent for the empty string), the other
    fields are untouched, a second update of the same field overrides the
    first, and updates of different fields commute. *)
Theorem updateFilter_is_an_update
  (f : CallsFilters.t) (k k' : CallsFilters.Key.t) (v v' : string) :
  get k (CallsFilters.updateFilter f k v) = CallsFilters.or_undefined v
  /\ (k' <> k ->
      get k' (CallsFilters.updateFilter f k v) = get k' f)
  /\ CallsFilters.updateFilter (CallsFilters.updateFilter f k v) k v'
     = CallsFilters.updateFilter f k v'
  /\ (k' <> k ->
      CallsFilters.updateFilter (CallsFilters.updateFilter f k v) k' v'
      = CallsFilters.updateFilter (CallsFilters.updateFilter f k' v') k v).
Proof.
  repeat split.
  - destruct k; reflexivity.
  - intros Hk. destruct k, k'; try congruence; reflexivity.
  - destruct k; reflexivity.
  - intros Hk. destruct k, k'; try congruence; reflexivity.
Qed.

Lemma updateFilter_is_an_update_witness :
  CallsFilters.updateFilter
    (CallsFilters.updateFilter CallsFilters.empty
       CallsFilters.Key.dateFrom "2025-06-01")
    CallsFilters.Key.outcome "Busy"
  = CallsFilters.updateFilter
      (CallsFilters.updateFilter CallsFilters.empty
         CallsFilters.Key.outcome "Busy")
      CallsFilters.Key.dateFrom "2025-06-01".
Proof.
  apply (proj2 (proj2 (proj2
           (updateFilter_is_an_update CallsFilters.empty
              CallsFilters.Key.dateFrom CallsFilters.Key.outcome
              "2025-06-01" "Busy")))).
  discriminate.
Defined.

End DashboardFacts.

(** ** The queries *)

Module QueryFacts.
Import CallsDashboard CallsQueries.

Lemma totalPages_div (count : Z) :
  totalPages (queryResult (Some count)) = (count + 9) / 10.
Proof.
  unfold queryResult, CallsOverview.Math_ceil, Qceiling, Qfloor,
    CALLS_PER_PAGE. simpl.
  rewrite Z.mul_1_r.
  change (Z.pos (1 * 10)) with 10.
  generalize (Z.div_mod (- count) 10), (Z.mod_pos_bound (- count) 10),
    (Z.div_mod (count + 9) 10), (Z.mod_pos_bound (count + 9) 10).
  lia.
Qed.

Lemma append_inj_r (a b c : string) : (a ++ c = b ++ c)%string -> a = b.
Proof.
  revert b; induction a as [|x a IH]; intros b H.
  - destruct b as [|y b]; [reflexivity|].
    apply (f_equal String.length) in H.
    simpl in H. rewrite ChartShaping.string_length_append in H. lia.
  - destruct b as [|y b].
    + apply (f_equal String.length) in H.
      simpl in H. rewrite ChartShaping.string_length_append in H. lia.
    + simpl in H. inversion H; subst. f_equal. apply IH; assumption.
Qed.

Ltac each_field f :=
  destruct f as [o d t c];
  destruct o as [[|? ?]|], d as [[|? ?]|], t as [[|? ?]|], c as [[|? ?]|].

(** X13: the count query and the data query of the table carry the same
    predicates, for every filter value and page, so the total count is the
    count of the rows being paged; and they carry no predicate exactly when
    no filter is active. *)
Theorem count_and_data_agree (f : CallsFilters.t) (currentPage : Z) :
  Supabase.predicates (countQuery f)
    = Supabase.predicates (dataQuery f currentPage)
  /\ Supabase.table (countQuery f) = Supabase.table (dataQuery f currentPage)
  /\ (Supabase.predicates (countQuery f) = []
      <-> CallsFilters.hasActiveFilters f = false).
Proof.
  each_field f; repeat split; intros; try reflexivity; discriminate.
Qed.

(** X14: the four aggregate calls (statistics, daily, outcome, hourly) get
    the same filter arguments, and these match the table's predicates field
    by field: an argument is a value [v] exactly when the table query has
    the predicate for [v] on that column, and null otherwise. *)
Theorem aggregates_filtered_like_table (f : CallsFilters.t) (v : string) :
  filterArgs (dailyCall f) = filterArgs (statisticsCall f)
  /\ filterArgs (outcomeCall f) = filterArgs (statisticsCall f)
  /\ filterArgs (hourlyCall f) = filterArgs (statisticsCall f)
  /\ (Supabase.p_outcome (Supabase.args (statisticsCall f)) = Some v
      <-> In (Supabase.P_eq "outcome" v)
             (Supabase.predicates (countQuery f)))
  /\ (Supabase.p_date_from (Supabase.args (statisticsCall f)) = Some v
      <-> In (Supabase.P_gte "call_date" v)
             (Supabase.predicates (countQuery f)))
  /\ (Supabase.p_date_to (Supabase.args (statisticsCall f)) = Some v
      <-> In (Supabase.P_lte "call_date" v)
             (Supabase.predicates (countQuery f)))
  /\ (Supabase.p_customer_number (Supabase.args (statisticsCall f)) = Some v
      <-> In (Supabase.P_ilike "customer_number" ("%" ++ v ++ "%"))
             (Supabase.predicates (countQuery f))).
Proof.
  do 3 (split; [reflexivity|]).
  each_field f; simpl; repeat split; intros H;
    repeat match goal with
           | H : _ \/ _ |- _ => destruct H as [H|H]
           | H : False |- _ => contradiction
           | H : None = Some _ |- _ => discriminate H
           | H : Some _ = Some _ |- _ => inversion H; subst; clear H
           | H : String ?a (?s ++ "%")%string = (?w ++ "%")%string |- _ =>
               apply (append_inj_r (String a s) w "%") in H; subst
           | H : _ = _ :> Supabase.Predicate |- _ =>
               first [discriminate H | inversion H; subst; clear H]
           end;
    simpl; auto 10.
Qed.

(** X15: the page count computed from a row count [count] is the least
    number of ten-row pages that hold [count] rows; it is 0 when the count
    is 0 or null. *)
Theorem totalPages_is_least_cover (count : Z) :
  count <= CALLS_PER_PAGE * totalPages (queryResult (Some count))
  /\ CALLS_PER_PAGE * (totalPages (queryResult (Some count)) - 1) < count
  /\ totalPages (queryResult (Some 0)) = 0
  /\ totalPages (queryResult None) = 0.
Proof.
  rewrite totalPages_div. unfold CALLS_PER_PAGE.
  repeat split; try reflexivity;
    generalize (Z.div_mod (count + 9) 10), (Z.mod_pos_bound (count + 9) 10);
    lia.
Qed.

(** X16: the row ranges of the pages tile the result: the data query of
    page [p] asks for the ten rows [10(p-1) .. 10p-1]; each of the [count]
    rows lies in the range of exactly one page, and that page is one of
    [1 .. totalPages]; and no page of [1 .. totalPages] starts beyond the
    last row. *)
Theorem ranges_tile_the_rows (f : CallsFilters.t) (count : Z) :
  (forall p,
      Supabase.row_range (dataQuery f p) = Some (rangeFrom p, rangeTo p)
      /\ rangeTo p - rangeFrom p + 1 = CALLS_PER_PAGE
      /\ rangeFrom (p + 1) = rangeTo p + 1)
  /\ rangeFrom 1 = 0
  /\ (forall i, 0 <= i < count ->
        exists p,
          1 <= p <= totalPages (queryResult (Some count))
          /\ rangeFrom p <= i <= rangeTo p
          /\ forall p', rangeFrom p' <= i <= rangeTo p' -> p' = p)
  /\ (forall p, 1 <= p <= totalPages (queryResult (Some count)) ->
        rangeFrom p < count).
Proof.
  rewrite totalPages_div. unfold rangeFrom, rangeTo, CALLS_PER_PAGE.
  repeat split.
  - each_field f; reflexivity.
  - lia.
  - lia.
  - intros i Hi. exists (i / 10 + 1).
    generalize (Z.div_mod i 10), (Z.mod_pos_bound i 10),
      (Z.div_mod (count + 9) 10), (Z.mod_pos_bound (count + 9) 10).
    intros. repeat split; try lia.
  - intros p Hp.
    generalize (Z.div_mod (count + 9) 10), (Z.mod_pos_bound (count + 9) 10).
    lia.
Qed.

Lemma ranges_tile_the_rows_witness :
  exists p,
    1 <= p <= totalPages (queryResult (Some 57))
    /\ rangeFrom p <= 34 <= rangeTo p
    /\ forall p', rangeFrom p' <= 34 <= rangeTo p' -> p' = p.
Proof.
  apply (proj1 (proj2 (proj2 (ranges_tile_the_rows CallsFilters.empty 57)))).
  lia.
Defined.

End QueryFacts.

(** ** More on the charts *)

Module ChartFacts.
Import CallsChart CallsChartCards.

(** The count that [hourlyData] shows for hour [h]. *)
Lemma hourlyData_calls (c : ChartData) :
  map HourEntry.calls (hourlyData (Some c))
  = map (fun h =>
           match find (fun r => Hourly.call_hour r =? Z.of_nat h) (hourly c)
           with
           | Some r => Hourly.call_count r
           | None => 0
           end) (seq 0 24).
Proof. unfold hourlyData. rewrite map_map. reflexivity. Qed.

Lemma total_zero s n : total (map (fun _ : nat => 0) (seq s n)) = 0.
Proof. revert s; induction n as [|n IH]; intros s; simpl; auto. Qed.

Lemma total_outside (k : nat) (x : Z) (g : nat -> Z) s n :
  (k < s \/ s + n <= k)%nat ->
  total (map (fun h => if Z.of_nat k =? Z.of_nat h then x else g h) (seq s n))
  = total (map g (seq s n)).
Proof.
  revert s; induction n as [|n IH]; intros s Hk; simpl; [reflexivity|].
  rewrite IH by lia.
  destruct (Z.eqb_spec (Z.of_nat k) (Z.of_nat s)); [lia|reflexivity].
Qed.

Lemma total_inside (k : nat) (x : Z) (g : nat -> Z) s n :
  (s <= k < s + n)%nat ->
  g k = 0 ->
  total (map (fun h => if Z.of_nat k =? Z.of_nat h then x else g h) (seq s n))
  = x + total (map g (seq s n)).
Proof.
  revert s; induction n as [|n IH]; intros s Hk Hg; simpl; [lia|].
  destruct (Z.eqb_spec (Z.of_nat k) (Z.of_nat s)) as [He|He].
  - assert (k = s) by lia. subst s.
    rewrite total_outside by lia. lia.
  - rewrite IH by (assumption || lia). lia.
Qed.

Lemma find_absent (rows : list Hourly.row) (hr : Z) :
  ~ In hr (map Hourly.call_hour rows) ->
  find (fun r => Hourly.call_hour r =? hr) rows = None.
Proof.
  induction rows as [|r rows IH]; simpl; intros Hn; [reflexivity|].
  destruct (Z.eqb_spec (Hourly.call_hour r) hr) as [He|He].
  - exfalso. apply Hn. left. assumption.
  - apply IH. intros Hin. apply Hn. right. assumption.
Qed.

Lemma hourly_total (rows : list Hourly.row) (n : nat) :
  NoDup (map Hourly.call_hour rows) ->
  Forall (fun r => 0 <= Hourly.call_hour r < Z.of_nat n) rows ->
  total (map (fun h =>
                match find (fun r => Hourly.call_hour r =? Z.of_nat h) rows
                with
                | Some r => Hourly.call_count r
                | None => 0
                end) (seq 0 n))
  = total (map Hourly.call_count rows).
Proof.
  induction rows as [|r rows IH]; intros Hd Hr.
  - simpl. apply total_zero.
  - inversion Hd as [|? ? Hnotin Hd']; subst.
    inversion Hr as [|? ? Hr0 Hr']; subst.
    set (g := fun h : nat =>
                match find (fun r0 => Hourly.call_hour r0 =? Z.of_nat h) rows
                with
                | Some r0 => Hourly.call_count r0
                | None => 0
                end).
    transitivity
      (total (map (fun h =>
                     if Z.of_nat (Z.to_nat (Hourly.call_hour r)) =? Z.of_nat h
                     then Hourly.call_count r else g h) (seq 0 n))).
    + f_equal. apply map_ext. intros h.
      rewrite Z2Nat.id by lia. unfold g. simpl find.
      destruct (Hourly.call_hour r =? Z.of_nat h); reflexivity.
    + rewrite total_inside.
      * unfold g. rewrite IH by assumption. reflexivity.
      * lia.
      * unfold g. rewrite Z2Nat.id by lia.
        rewrite find_absent by assumption. reflexivity.
Qed.

(** X17: when the fetched hourly rows have distinct hours, all within
    [0 .. 23], densification loses nothing: the 24 counts of [hourlyData] add
    up to the sum of the fetched counts. *)
Theorem hourly_total_preserved (c : ChartData) :
  NoDup (map Hourly.call_hour (hourly c)) ->
  Forall (fun r => 0 <= Hourly.call_hour r < 24) (hourly c) ->
  total (map HourEntry.calls (hourlyData (Some c)))
  = total (map Hourly.call_count (hourly c)).
Proof.
  intros Hd Hr. rewrite hourlyData_calls. apply (hourly_total _ 24); assumption.
Qed.

Lemma hourly_total_preserved_witness :
  total (map HourEntry.calls (hourlyData (Some Samples.busy_morning)))
  = total (map Hourly.call_count (hourly Samples.busy_morning)).
Proof.
  apply (hourly_total_preserved Samples.busy_morning).
  - unfold Samples.busy_morning. simpl.
    repeat (constructor; [simpl; intuition lia|]). constructor.
  - unfold Samples.busy_morning. simpl.
    repeat (constructor; [simpl; lia|]). constructor.
Defined.

(** X18: a display label has the length of the name when the name has at
    most 12 characters and exactly 15 characters otherwise, so it never
    exceeds 15 (and is longer than a name of 13 or 14 characters); the legend
    text has the length of the name up to 15 characters and exactly 18
    beyond. *)
Theorem label_lengths (s : string) :
  String.length (truncate_name s)
    = (if (12 <? String.length s)%nat then 15 else String.length s)%nat
  /\ (String.length (truncate_name s) <= 15)%nat
  /\ String.length (legendFormatter s)
     = (if (15 <? String.length s)%nat then 18 else String.length s)%nat
  /\ (String.length (legendFormatter s) <= 18)%nat.
Proof.
  unfold truncate_name, legendFormatter.
  destruct (Nat.ltb_spec 12 (String.length s)) as [H12|H12];
    destruct (Nat.ltb_spec 15 (String.length s)) as [H15|H15];
    rewrite ?ChartShaping.string_length_append;
    try (destruct (ChartShaping.substring_prefix 12 s) as [-> _]; [lia|]);
    try (destruct (ChartShaping.substring_prefix 15 s) as [-> _]; [lia|]);
    simpl; repeat split; lia.
Qed.

(** X19: every pie slice gets one of the nine colours (the index never
    leaves the palette), the colours repeat with period 9, and the first
    nine slices get nine different colours. *)
Theorem slice_colours :
  (forall index, exists colour,
        cellFill index = Some colour /\ In colour COLORS)
  /\ (forall index, cellFill (index + 9) = cellFill index)
  /\ (forall i j, (i < j < 9)%nat -> cellFill i <> cellFill j).
Proof.
  repeat split.
  - intros index. unfold cellFill.
    change (List.length COLORS) with 9%nat.
    pose proof (Nat.mod_upper_bound index 9 ltac:(lia)) as Hb.
    destruct (nth_error COLORS (index mod 9)) as [colour|] eqn:Hn.
    + exists colour. split; [reflexivity|].
      eapply nth_error_In; eassumption.
    + apply nth_error_None in Hn.
      change (List.length COLORS) with 9%nat in Hn. lia.
  - intros index. unfold cellFill.
    change (List.length COLORS) with 9%nat.
    replace (index + 9)%nat with (index + 1 * 9)%nat by lia.
    rewrite Nat.Div0.mod_add. reflexivity.
  - intros i j Hij.
    assert (Hj : (j = 1 \/ j = 2 \/ j = 3 \/ j = 4 \/ j = 5 \/ j = 6
                  \/ j = 7 \/ j = 8)%nat) by lia.
    assert (Hi : (i = 0 \/ i = 1 \/ i = 2 \/ i = 3 \/ i = 4 \/ i = 5
                  \/ i = 6 \/ i = 7)%nat) by lia.
    repeat (destruct Hj as [->|Hj]);
      repeat (destruct Hi as [->|Hi]); subst;
      try lia; vm_compute; discriminate.
Qed.

Lemma slice_colours_witness : cellFill 2 <> cellFill 7.
Proof. apply (proj2 (proj2 slice_colours) 2%nat 7%nat). lia. Defined.

Lemma nth_error_last {A : Type} (l : list A) (d : A) :
  nth_error (d :: l) (List.length l) = Some (last l d).
Proof.
  revert d; induction l as [|x l IH]; intros d; [reflexivity|].
  change (nth_error (x :: l) (List.length l) = Some (last (x :: l) d)).
  rewrite IH. f_equal.
  destruct l as [|y l]; [reflexivity|].
  simpl. clear IH. revert y. induction l as [|z l IHl]; intros y; simpl; auto.
Qed.

Lemma hd_error_rev_cons {A : Type} (l : list A) (d : A) :
  hd_error (rev (d :: l)) = Some (last l d).
Proof.
  rewrite <- nth_error_last.
  rewrite <- (rev_involutive (d :: l)) at 2.
  destruct (rev (d :: l)) as [|x r] eqn:Hr.
  - apply (f_equal (@List.length A)) in Hr.
    rewrite length_rev in Hr. discriminate.
  - assert (Hlen : List.length l = List.length r).
    { apply (f_equal (@List.length A)) in Hr.
      rewrite length_rev in Hr. simpl in Hr. lia. }
    rewrite Hlen. simpl.
    rewrite nth_error_app2 by (rewrite length_rev; lia).
    rewrite length_rev, Nat.sub_diag. reflexivity.
Qed.

Section DateRangeFacts.

Variable Date : Type.
Variable formatInTimeZone : Date -> string -> string -> string.

(** X20: [dateRange] is the text "No data available" when nothing was
    fetched or no daily row was (also when outcomes exist), whatever
    [parseISO] is bound to.  With at least one daily row it never reads a
    missing row: as the component is written it throws on the call of the
    unbound [parseISO]; with [parseISO] bound it runs from the last fetched
    row to the first one, which are the rows behind the first and the last
    entry of the daily series. *)
Theorem dateRange_matches_series :
  (forall parseISO,
      dateRange Date parseISO formatInTimeZone None
      = JS.Normal "No data available"%string)
  /\ (forall parseISO c, daily c = [] ->
        dateRange Date parseISO formatInTimeZone (Some c)
        = JS.Normal "No data available"%string)
  /\ (forall c, daily c <> [] ->
        dateRange Date (imported_parseISO Date) formatInTimeZone (Some c)
        = JS.Throw (JS.NotAFunction "parseISO"))
  /\ (forall parse c newest rest,
        daily c = newest :: rest ->
        dateRange Date (Some parse) formatInTimeZone (Some c)
        = JS.Normal
            (formatInTimeZone (parse (Daily.call_date (last rest newest)))
               "America/New_York" "MMM dd, yyyy"
             ++ " – "
             ++ formatInTimeZone (parse (Daily.call_date newest))
                  "America/New_York" "MMM dd, yyyy"
             ++ " ET")%string
        /\ exists series,
             dailyStats Date (Some parse) formatInTimeZone (Some c)
             = JS.Normal series
             /\ hd_error series
                = Some (dailyStat_with Date formatInTimeZone parse
                          (last rest newest))
             /\ hd_error (rev series)
                = Some (dailyStat_with Date formatInTimeZone parse newest)).
Proof.
  split; [reflexivity|]. split; [|split].
  - intros parseISO c Hc. unfold dateRange. rewrite Hc. simpl.
    rewrite andb_false_r. reflexivity.
  - intros c Hne. unfold dateRange, hasData, formatRowAt.
    destruct (daily c) as [|newest rest]; [congruence|].
    change (List.length (newest :: rest) - 1)%nat
      with (List.length rest - 0)%nat.
    rewrite Nat.sub_0_r, nth_error_last. reflexivity.
  - intros parse c newest rest Hc. split.
    + unfold dateRange, hasData, formatRowAt. rewrite Hc.
      change (List.length (newest :: rest) - 1)%nat
        with (List.length rest - 0)%nat.
      rewrite Nat.sub_0_r, nth_error_last. reflexivity.
    + exists (rev (map (dailyStat_with Date formatInTimeZone parse)
                     (daily c))).
      split; [|split].
      * unfold dailyStats, dailyStat_of, JS.call. simpl.
        rewrite (ChartShaping.array_map_normal
                   (dailyStat_with Date formatInTimeZone parse)).
        reflexivity.
      * rewrite Hc, <- map_rev.
        pose proof (hd_error_rev_cons rest newest) as Hh.
        destruct (rev (newest :: rest)); simpl in *; [discriminate|].
        inversion Hh; subst. reflexivity.
      * rewrite rev_involutive, Hc. reflexivity.
Qed.

End DateRangeFacts.

Lemma dateRange_matches_series_witness :
  dateRange string (imported_parseISO string) (fun d _ _ => d)
    (Some Samples.two_days)
  = JS.Throw (JS.NotAFunction "parseISO").
Proof.
  apply (proj1 (proj2 (proj2 (dateRange_matches_series string
                                (fun d _ _ => d))))
           Samples.two_days).
  discriminate.
Defined.

End ChartFacts.

(** ** More on the "Total Minutes" card *)

Module MinutesFacts.
Import CallsOverview.

(** X21: the shown minutes are monotone in the fetched minutes: a larger
    total never shows as a smaller number. *)
Theorem shown_minutes_monotone (s1 s2 : CallStatistics) :
  (total_minutes s1 <= total_minutes s2)%Q ->
  roundedUpMinutes (Some s1) <= roundedUpMinutes (Some s2).
Proof.
  intros Hle. rewrite !TotalMinutes.rounded_up_eq.
  apply Z.mul_le_mono_nonneg_r; [lia|].
  apply Qceiling_resp_le.
  apply Qmult_le_compat_r; [assumption|]. discriminate.
Qed.

Lemma shown_minutes_monotone_witness :
  roundedUpMinutes (Some Samples.minutes_100)
  <= roundedUpMinutes (Some Samples.minutes_101).
Proof.
  apply (shown_minutes_monotone Samples.minutes_100 Samples.minutes_101).
  unfold Qle; simpl; lia.
Defined.

(** X22: the card shows the fetched total unchanged exactly when that total
    is an integer multiple of 3; with no statistics at all it shows 0. *)
Theorem shown_minutes_exact_iff_multiple_of_3 (s : CallStatistics) :
  (inject_Z (roundedUpMinutes (Some s)) == total_minutes s
   <-> exists k : Z, total_minutes s == inject_Z (3 * k))%Q
  /\ roundedUpMinutes None = 0.
Proof.
  split; [|reflexivity].
  rewrite TotalMinutes.rounded_up_eq. split.
  - intros H. exists (Qceiling (total_minutes s / 3)).
    rewrite Z.mul_comm. symmetry. exact H.
  - intros [k Hk].
    assert (Hq : (total_minutes s / 3 == inject_Z k)%Q).
    { rewrite Hk, inject_Z_mult. field. }
    rewrite Hq, Qceiling_Z, Hk, Z.mul_comm. reflexivity.
Qed.

End MinutesFacts.
